(** * streamlit_app.py: the listing dashboard's filter pipeline

    The script reads [listings.csv] into a pandas frame, cleans it, and
    narrows it in three steps driven by sidebar widgets.  The frame is
    modelled as the list of its rows; a cell that pandas reports as
    missing (NaN) is [None].  A float cell holds a rational; a price text
    is read with the rounding and the overflow of binary64, while the
    sums and quotients behind a mean are taken exactly. *)

From Stdlib Require Import QArith Ascii String.
From stdpp Require Import base numbers list strings gmap sorting pretty.

Local Open Scope string_scope.
Set Warnings "-clear-no-such-hyp".

(** ** Exceptions and results *)

Inductive exn :=
  | ValueError
  | OverflowError
  | IndexError
  | TypeError
  | StreamlitInvalidMinMaxError.

Inductive result (A : Type) :=
  | Ok (a : A)
  | Raise (e : exn).
Arguments Ok {A} a.
Arguments Raise {A} e.

Definition bind {A B} (m : result A) (k : A → result B) : result B :=
  match m with
  | Ok a => k a
  | Raise e => Raise e
  end.

Notation "'let*' x := m 'in' k" := (bind m (λ x, k))
  (at level 10, x pattern, m at level 100, k at level 200).

Fixpoint mapM {A B} (f : A → result B) (l : list A) : result (list B) :=
  match l with
  | [] => Ok []
  | x :: l' => let* y := f x in let* ys := mapM f l' in Ok (y :: ys)
  end.


(** ** Cells and floats *)

(** A pandas cell is a value or NaN. *)
Abbreviation cell A := (option A) (only parsing).

(** The non-NaN values of a float64 column. *)
Inductive float :=
  | Finite (q : Q)
  | Inf (negative : bool).

(** Round to nearest, ties to even: the integer nearest to [n / d], for
    [n] not negative and [d] positive. *)
Definition round_half_even (n d : Z) : Z :=
  let q := (n / d)%Z in
  match (2 * (n mod d) ?= d)%Z with
  | Lt => q
  | Gt => (q + 1)%Z
  | Eq => if Z.even q then q else (q + 1)%Z
  end.

(** The binary64 value nearest to a rational, as a correctly rounded
    conversion gives it: 53 bits of significand, exponents down to the
    subnormals, and infinity from the middle between the greatest finite
    value and [2 ^ 1024] on.  The sign of a zero is not kept. *)
Definition binary64 (q : Q) : float :=
  let n := Z.abs (Qnum q) in
  let d := Z.pos (Qden q) in
  if (n =? 0)%Z then Finite 0
  else
    let k := (Z.log2 n - Z.log2 d)%Z in
    let below := if (0 <=? k)%Z then (n <? d * 2 ^ k)%Z else (n * 2 ^ (- k) <? d)%Z in
    let e := Z.max ((if below then k - 1 else k) - 52) (-1074) in
    let m := if (0 <=? e)%Z then round_half_even n (d * 2 ^ e)
             else round_half_even (n * 2 ^ (- e)) d in
    if (0 <=? e)%Z && (2 ^ 1024 <=? m * 2 ^ e)%Z then Inf (Qnum q <? 0)%Z
    else
      let a := if (0 <=? e)%Z then inject_Z (m * 2 ^ e)
               else Qmake m (Z.to_pos (2 ^ (- e))) in
      Finite (Qred (if (Qnum q <? 0)%Z then - a else a)).

Definition fle (x y : float) : bool :=
  match x, y with
  | Inf true, _ => true
  | _, Inf false => true
  | Finite a, Finite b => Qle_bool a b
  | _, _ => false
  end.

(** [x + y]; [inf + -inf] is NaN. *)
Definition fadd (x y : float) : cell float :=
  match x, y with
  | Finite a, Finite b => Some (Finite (Qred (a + b)))
  | Inf s, Finite _ | Finite _, Inf s => Some (Inf s)
  | Inf s, Inf t => if Bool.eqb s t then Some (Inf s) else None
  end.

Definition fdiv_count (x : float) (n : nat) : float :=
  match x with
  | Finite a => Finite (Qred (a / inject_Z (Z.of_nat n)))
  | Inf s => Inf s
  end.

(** The non-NaN cells of a column. *)
Definition dropna_cells {A} (col : list (cell A)) : list A :=
  omap id col.

Fixpoint fsum (acc : cell float) (xs : list float) : cell float :=
  match xs with
  | [] => acc
  | x :: xs' => fsum (a ← acc; fadd a x) xs'
  end.

(** [Series.mean()]: NaN cells are skipped; no values left gives NaN. *)
Definition mean (col : list (cell float)) : cell float :=
  match dropna_cells col with
  | [] => None
  | xs => (λ s, fdiv_count s (length xs)) <$> fsum (Some (Finite 0)) xs
  end.

Definition fmin (x y : float) : float := if fle x y then x else y.
Definition fmax (x y : float) : float := if fle x y then y else x.

(** [Series.min()] and [Series.max()], NaN skipped. *)
Definition col_min (col : list (cell float)) : cell float :=
  match dropna_cells col with
  | [] => None
  | x :: xs => Some (foldl fmin x xs)
  end.

Definition col_max (col : list (cell float)) : cell float :=
  match dropna_cells col with
  | [] => None
  | x :: xs => Some (foldl fmax x xs)
  end.

(** Python's [int(x)] on a float: truncation toward zero; NaN and the
    infinities raise. *)
Definition int (x : cell float) : result Z :=
  match x with
  | None => Raise ValueError
  | Some (Inf _) => Raise OverflowError
  | Some (Finite q) => Ok (Z.quot (Qnum q) (Z.pos (Qden q)))
  end.

(** [x >= n] and [x <= n] of a float column against a Python int; a NaN
    cell compares false. *)
Definition ge_int (x : cell float) (n : Z) : bool :=
  match x with
  | Some v => fle (Finite (inject_Z n)) v
  | None => false
  end.

Definition le_int (x : cell float) (n : Z) : bool :=
  match x with
  | Some v => fle v (Finite (inject_Z n))
  | None => false
  end.

(** [col == s] on a text column; NaN equals nothing, and neither does a
    NaN (or absent) selection. *)
Definition eq_str (c : cell string) (sel : cell string) : bool :=
  match c, sel with
  | Some a, Some b => bool_decide (a = b)
  | _, _ => false
  end.

(** ** Parsing a price (line 9) *)

(** [.replace('[\$,]', '', regex=True)] on a text cell: every dollar sign
    and every comma is deleted. *)
Definition is_currency_char (a : ascii) : bool :=
  bool_decide (a = "$"%char) || bool_decide (a = ","%char).

Fixpoint replace_currency (s : string) : string :=
  match s with
  | EmptyString => EmptyString
  | String a s' =>
      if is_currency_char a then replace_currency s'
      else String a (replace_currency s')
  end.

(** Python's [float(str)], which [astype(float)] applies to each text
    cell of an object column, over ASCII text. *)
Module PyFloat.

Definition is_space (a : ascii) : bool :=
  let n := N_of_ascii a in
  ((9 <=? n) && (n <=? 13) || (n =? 32))%N.

Definition is_digit (a : ascii) : bool :=
  let n := N_of_ascii a in ((48 <=? n) && (n <=? 57))%N.

Definition digit_val (a : ascii) : Z := Z.of_N (N_of_ascii a) - 48.

Definition lower (a : ascii) : ascii :=
  let n := N_of_ascii a in
  if ((65 <=? n) && (n <=? 90))%N then ascii_of_N (n + 32) else a.

Fixpoint lstrip (l : list ascii) : list ascii :=
  match l with
  | a :: l' => if is_space a then lstrip l' else l
  | [] => []
  end.

Definition strip (l : list ascii) : list ascii :=
  reverse (lstrip (reverse (lstrip l))).

(** An underscore is allowed only between two digits; the accepted
    ones are dropped before the number is read. *)
Fixpoint drop_underscores (prev : option ascii) (l : list ascii)
  : option (list ascii) :=
  match l with
  | [] => if bool_decide (prev = Some "_"%char) then None else Some []
  | a :: l' =>
      if bool_decide (a = "_"%char) then
        match prev with
        | Some p => if is_digit p then drop_underscores (Some a) l' else None
        | None => None
        end
      else if bool_decide (prev = Some "_"%char) && negb (is_digit a) then None
      else (a ::.) <$> drop_underscores (Some a) l'
  end.

Definition take_sign (l : list ascii) : bool * list ascii :=
  match l with
  | "-"%char :: l' => (true, l')
  | "+"%char :: l' => (false, l')
  | _ => (false, l)
  end.

(** The leading digits of [l], folded into [acc], their number, and
    what follows them. *)
Fixpoint take_digits (acc : Z) (n : nat) (l : list ascii)
  : Z * nat * list ascii :=
  match l with
  | a :: l' =>
      if is_digit a then take_digits (10 * acc + digit_val a) (S n) l'
      else (acc, n, l)
  | [] => (acc, n, [])
  end.

(** [e], an optional sign and at least one digit, up to the end. *)
Definition exponent (l : list ascii) : option Z :=
  match l with
  | [] => Some 0%Z
  | a :: l' =>
      if bool_decide (lower a = "e"%char) then
        let '(neg, l'') := take_sign l' in
        match take_digits 0 0 l'' with
        | (_, O, _) => None
        | (e, _, []) => Some (if neg then - e else e)%Z
        | _ => None
        end
      else None
  end.

Definition scale (m e : Z) : Q :=
  if (0 <=? e)%Z then inject_Z (m * 10 ^ e)
  else Qmake m (Z.to_pos (10 ^ (- e))).

(** Digits with an optional point, then an optional exponent. *)
Definition number (l : list ascii) : option Q :=
  let '(ip, ni, l1) := take_digits 0 0 l in
  let '(m, nf, l2) :=
    match l1 with
    | "."%char :: l1' => take_digits ip 0 l1'
    | _ => (ip, O, l1)
    end in
  if bool_decide (ni + nf = 0)%nat then None
  else e ← exponent l2; Some (scale m (e - Z.of_nat nf)).

Definition is_word (w : string) (l : list ascii) : bool :=
  bool_decide (lower <$> l = list_ascii_of_string w).

(** [None]: the text is no float literal ([ValueError]);
    [Some None]: NaN.  The decimal value read is rounded to binary64. *)
Definition parse (s : string) : option (cell float) :=
  l ← drop_underscores None (strip (list_ascii_of_string s));
  let '(neg, body) := take_sign l in
  if is_word "inf" body || is_word "infinity" body then Some (Some (Inf neg))
  else if is_word "nan" body then Some None
  else q ← number body; Some (Some (binary64 (if neg then - q else q))).

End PyFloat.

(** ** Rows *)

(** A listing id as [read_csv] delivers it: an int64 or a text column
    (the id column is taken to be complete). *)
Inductive id_value :=
  | IdInt (n : Z)
  | IdText (s : string).

(** A raw price cell: text such as [$1,250.00], or already a number when
    the whole column is numeric. *)
Inductive price_value :=
  | PriceText (s : string)
  | PriceNumber (f : float).

(** A row of the frame returned by [pd.read_csv("listings.csv")].  The
    columns the script indexes by name are fields; every other column of
    the file, [host_name] and [host_acceptance_rate] among them when the
    file has them, is an entry of [raw_others]. *)
Record raw_listing := {
  raw_id : id_value;
  raw_price : cell price_value;
  raw_host_is_superhost : cell string;
  raw_room_type : cell string;
  raw_host_neighbourhood : cell string;
  raw_neighbourhood_cleansed : cell string;
  raw_review_scores_rating : cell float;
  raw_review_scores_accuracy : cell float;
  raw_review_scores_cleanliness : cell float;
  raw_review_scores_checkin : cell float;
  raw_review_scores_communication : cell float;
  raw_review_scores_location : cell float;
  raw_picture_url : cell string;
  raw_host_url : cell string;
  raw_host_response_rate : cell string;
  raw_others : gmap string (cell string)
}.

(** A row of [df] once the script has assigned its columns. *)
Record listing := {
  id : string;
  price : cell float;
  host_is_superhost : cell string;
  room_type : cell string;
  host_neighbourhood : cell string;
  neighbourhood_cleansed : cell string;
  review_scores_rating : cell float;
  review_scores_accuracy : cell float;
  review_scores_cleanliness : cell float;
  review_scores_checkin : cell float;
  review_scores_communication : cell float;
  review_scores_location : cell float;
  avg_review_score : cell float;
  picture_url : cell string;
  host_url : cell string;
  host_response_rate : cell string;
  others : gmap string (cell string)
}.

Definition isna {A} (c : cell A) : bool :=
  match c with
  | None => true
  | Some _ => false
  end.

(** Whether the cell of column [col] is NaN.  A name outside the frame
    is a [KeyError] in pandas; the script names none. *)
Definition isna_col (r : listing) (col : string) : bool :=
  if bool_decide (col = "price") then isna (price r)
  else if bool_decide (col = "host_is_superhost") then isna (host_is_superhost r)
  else if bool_decide (col = "room_type") then isna (room_type r)
  else if bool_decide (col = "host_neighbourhood") then isna (host_neighbourhood r)
  else if bool_decide (col = "neighbourhood_cleansed") then isna (neighbourhood_cleansed r)
  else if bool_decide (col = "review_scores_rating") then isna (review_scores_rating r)
  else if bool_decide (col = "review_scores_accuracy") then isna (review_scores_accuracy r)
  else if bool_decide (col = "review_scores_cleanliness") then isna (review_scores_cleanliness r)
  else if bool_decide (col = "review_scores_checkin") then isna (review_scores_checkin r)
  else if bool_decide (col = "review_scores_communication") then isna (review_scores_communication r)
  else if bool_decide (col = "review_scores_location") then isna (review_scores_location r)
  else if bool_decide (col = "avg_review_score") then isna (avg_review_score r)
  else if bool_decide (col = "picture_url") then isna (picture_url r)
  else if bool_decide (col = "host_url") then isna (host_url r)
  else if bool_decide (col = "host_response_rate") then isna (host_response_rate r)
  else if bool_decide (col = "id") then false
  else match others r !! col with
       | Some c => isna c
       | None => false
       end.

(** [df.dropna(subset=..., inplace=True)]: a row goes when any of the
    named cells is NaN. *)
Definition dropna (subset : list string) (frame : list listing) : list listing :=
  filter (λ r, forallb (λ col, negb (isna_col r col)) subset) frame.

(** ** Load and clean (lines 6 to 26) *)

(** Line 9 on one cell: NaN stays NaN, text loses its currency characters
    and is read as a float, a number is kept.  Text that is no float
    literal raises. *)
Definition price_astype_float (c : cell price_value) : result (cell float) :=
  match c with
  | None => Ok None
  | Some (PriceNumber f) => Ok (Some f)
  | Some (PriceText s) =>
      match PyFloat.parse (replace_currency s) with
      | Some v => Ok v
      | None => Raise ValueError
      end
  end.

(** Line 10: [astype(str)]. *)
Definition id_astype_str (v : id_value) : string :=
  match v with
  | IdInt n => pretty n
  | IdText s => s
  end.

(** Line 11: [.map({'t': 'Yes', 'f': 'No'})]; a key outside the dict, and
    NaN, map to NaN. *)
Definition map_superhost (c : cell string) : cell string :=
  match c with
  | Some s =>
      if bool_decide (s = "t") then Some "Yes"
      else if bool_decide (s = "f") then Some "No"
      else None
  | None => None
  end.

Definition review_columns : list string :=
  ["review_scores_rating"; "review_scores_accuracy"; "review_scores_cleanliness";
   "review_scores_checkin"; "review_scores_communication"; "review_scores_location"].

Definition tooltip_columns : list string :=
  ["picture_url"; "host_url"; "host_response_rate"].

Definition review_cells (r : raw_listing) : list (cell float) :=
  [raw_review_scores_rating r; raw_review_scores_accuracy r;
   raw_review_scores_cleanliness r; raw_review_scores_checkin r;
   raw_review_scores_communication r; raw_review_scores_location r].

(** The column assignments of lines 9, 10, 11 and 22 on one row.  Line 22
    runs between two [dropna] calls; it is computed row by row, so doing
    it before them gives the surviving rows the same cells. *)
Definition assign_columns (r : raw_listing) : result listing :=
  let* p := price_astype_float (raw_price r) in
  Ok {| id := id_astype_str (raw_id r);
        price := p;
        host_is_superhost := map_superhost (raw_host_is_superhost r);
        room_type := raw_room_type r;
        host_neighbourhood := raw_host_neighbourhood r;
        neighbourhood_cleansed := raw_neighbourhood_cleansed r;
        review_scores_rating := raw_review_scores_rating r;
        review_scores_accuracy := raw_review_scores_accuracy r;
        review_scores_cleanliness := raw_review_scores_cleanliness r;
        review_scores_checkin := raw_review_scores_checkin r;
        review_scores_communication := raw_review_scores_communication r;
        review_scores_location := raw_review_scores_location r;
        avg_review_score := mean (review_cells r);
        picture_url := raw_picture_url r;
        host_url := raw_host_url r;
        host_response_rate := raw_host_response_rate r;
        others := raw_others r |}.

(** The cleaned frame [df] of line 26, from the frame [read_csv] returned. *)
Definition df (listings_csv : list raw_listing) : result (list listing) :=
  let* frame := mapM assign_columns listings_csv in
  let frame := dropna ["price"; "room_type"; "host_neighbourhood"; "host_is_superhost"] frame in
  let frame := dropna review_columns frame in
  let frame := dropna tooltip_columns frame in
  Ok frame.

(** ** Step 1: price range and superhost (lines 33 to 44) *)

Definition price_min (frame : list listing) : result Z :=
  int (col_min (price <$> frame)).

Definition price_max (frame : list listing) : result Z :=
  int (col_max (price <$> frame)).

(** [st.sidebar.selectbox]: the option picked in the session, the first
    one when the session holds no valid pick, nothing without options. *)
Definition selectbox {A} (options : list A) (pick : nat) : option A :=
  match options !! pick with
  | Some x => Some x
  | None => head options
  end.

(** The value of a range slider with [value=(price_min, price_max)]: the
    pair picked in the session when it lies in the offered range, else
    the default, which is the full range. *)
Definition slider (min_value max_value : Z) (pick : option (Z * Z)) : Z * Z :=
  match pick with
  | Some (lo, hi) =>
      if bool_decide (min_value ≤ lo ∧ lo ≤ hi ∧ hi ≤ max_value)%Z then (lo, hi)
      else (min_value, max_value)
  | None => (min_value, max_value)
  end.

(** The call [st.sidebar.slider(...)] of line 34: the widget refuses
    ends that are not in strict order, and else returns its value. *)
Definition sidebar_slider (min_value max_value : Z) (pick : option (Z * Z))
    : result (Z * Z) :=
  if bool_decide (min_value < max_value)%Z then Ok (slider min_value max_value pick)
  else Raise StreamlitInvalidMinMaxError.

(** Lines 40 to 44. *)
Definition base_df (frame : list listing) (selected_price : Z * Z)
    (selected_superhost : string) : list listing :=
  filter (λ r, ge_int (price r) selected_price.1
               && le_int (price r) selected_price.2
               && eq_str (host_is_superhost r) (Some selected_superhost)) frame.

(** ** Average price by neighbourhood (lines 74 to 78) *)

(** [Series.unique()]: the distinct cells in order of first appearance. *)
Fixpoint unique `{EqDecision A} (l : list A) : list A :=
  match l with
  | [] => []
  | x :: l' => x :: filter (λ y, y ≠ x) (unique l')
  end.

(** The order of Python [str] values (code points, which on the bytes of
    UTF-8 text is the order of the bytes). *)
Definition str_le (a b : string) : Prop := String.leb a b.

Global Instance str_le_dec : RelDecision str_le.
Proof. intros a b. unfold str_le. apply _. Defined.

(** A row of the grouped frame: the group key and the mean of its prices. *)
Record summary := {
  neighbourhood : string;
  mean_price : cell float
}.

(** [groupby('neighbourhood_cleansed', as_index=False)['price'].mean()]:
    rows with a NaN key belong to no group, groups come in ascending key
    order. *)
Definition groupby_mean (frame : list listing) : list summary :=
  (λ k, {| neighbourhood := k;
           mean_price :=
             mean (price <$> filter (λ r, neighbourhood_cleansed r = Some k) frame) |})
  <$> merge_sort str_le (unique (dropna_cells (neighbourhood_cleansed <$> frame))).

(** [a] may stand before [b] in a frame sorted by price, descending, NaN
    last. *)
Definition price_desc (a b : summary) : Prop :=
  match mean_price a, mean_price b with
  | _, None => True
  | None, Some _ => False
  | Some x, Some y => fle y x
  end.

Global Instance price_desc_dec : RelDecision price_desc.
Proof. intros a b. unfold price_desc. destruct (mean_price a), (mean_price b); apply _. Defined.

(** [.sort_values('price', ascending=False)] is called with its default
    [kind], numpy's quicksort, of which pandas promises the order of the
    keys and nothing about rows with equal keys.  The script is modelled
    over any sort that keeps that promise. *)
Class SortValues := {
  sort_values_desc : list summary → list summary;
  sort_values_perm l : sort_values_desc l ≡ₚ l;
  sort_values_sorted l : Sorted price_desc (sort_values_desc l)
}.

Definition neighborhood_avg `{SortValues} (base : list listing) : list summary :=
  sort_values_desc (groupby_mean base).

(** ** Step 2: room type and neighbourhood (lines 95 to 104) *)

(** Python's [sorted] on the cells of a text column: text sorts, NaN
    alone stays, and text next to NaN (a float) cannot be compared. *)
Definition sorted (l : list (cell string)) : result (list (cell string)) :=
  match dropna_cells l with
  | [] => Ok l
  | strs =>
      if bool_decide (length strs = length l) then Ok (Some <$> merge_sort str_le strs)
      else Raise TypeError
  end.

Definition available_rooms (base : list listing) : result (list (cell string)) :=
  sorted (unique (room_type <$> base)).

Definition available_neighborhoods (base : list listing) : result (list (cell string)) :=
  sorted (unique (neighbourhood_cleansed <$> base)).

(** Lines 101 to 104; a selection that is NaN, or Python's [None],
    equals no cell. *)
Definition filtered_df (base : list listing)
    (selected_room selected_neighborhood : cell string) : list listing :=
  filter (λ r, eq_str (room_type r) selected_room
               && eq_str (neighbourhood_cleansed r) selected_neighborhood) base.

(** ** Step 3: one listing (lines 134 to 168) *)

Definition available_ids (filtered : list listing) : list string :=
  unique (id <$> filtered).

(** Line 137: [.iloc[0]] of the rows with the selected id; on no row it
    raises [IndexError]. *)
Definition selected_row (filtered : list listing) (selected_id : string) : result listing :=
  match filter (λ r, id r = selected_id) filtered with
  | r :: _ => Ok r
  | [] => Raise IndexError
  end.

(** Lines 140 to 150: a frame of two columns of six cells; its rows pair
    them by position. *)
Definition review_scores (row : listing) : list (string * cell float) :=
  zip ["Rating"; "Accuracy"; "Cleanliness"; "Check-in"; "Communication"; "Location"]
      [review_scores_rating row; review_scores_accuracy row;
       review_scores_cleanliness row; review_scores_checkin row;
       review_scores_communication row; review_scores_location row].

Definition host_fields : list string :=
  ["host_name"; "host_response_rate"; "host_acceptance_rate"].

(** The text columns of a row, as the Series that [.iloc[0]] returns
    holds them (its numeric columns are left out: the script only [get]s
    text). *)
Definition text_columns (row : listing) : gmap string (cell string) :=
  <["id" := Some (id row)]>
  (<["host_is_superhost" := host_is_superhost row]>
  (<["room_type" := room_type row]>
  (<["host_neighbourhood" := host_neighbourhood row]>
  (<["neighbourhood_cleansed" := neighbourhood_cleansed row]>
  (<["picture_url" := picture_url row]>
  (<["host_url" := host_url row]>
  (<["host_response_rate" := host_response_rate row]> (others row)))))))).

(** [Series.get(field, default)]: the cell under the label when the
    Series has the label, else the default. *)
Definition get (row : listing) (field : string) (default : string) : cell string :=
  match text_columns row !! field with
  | Some c => c
  | None => Some default
  end.

(** How an f-string shows a text cell: the text, and [nan] for NaN. *)
Definition format_cell (c : cell string) : string :=
  match c with
  | Some s => s
  | None => "nan"
  end.

Module PyStr.

Definition is_upper (a : ascii) : bool :=
  let n := N_of_ascii a in ((65 <=? n) && (n <=? 90))%N.
Definition is_lower (a : ascii) : bool :=
  let n := N_of_ascii a in ((97 <=? n) && (n <=? 122))%N.
Definition upper (a : ascii) : ascii :=
  if is_lower a then ascii_of_N (N_of_ascii a - 32) else a.

(** [s.replace('_', ' ')] *)
Fixpoint replace_underscore (s : string) : string :=
  match s with
  | EmptyString => EmptyString
  | String a s' =>
      String (if bool_decide (a = "_"%char) then " "%char else a) (replace_underscore s')
  end.

(** [s.title()] on ASCII text: a letter after a letter is lowered, any
    other letter is raised. *)
Fixpoint title_from (after_letter : bool) (s : string) : string :=
  match s with
  | EmptyString => EmptyString
  | String a s' =>
      let letter := is_upper a || is_lower a in
      String (if letter then (if after_letter then PyFloat.lower a else upper a) else a)
             (title_from letter s')
  end.

Definition title (s : string) : string := title_from false s.

End PyStr.

(** Lines 166 to 168: the line written for one host field. *)
Definition host_line (row : listing) (field : string) : string :=
  "**" +:+ PyStr.title (PyStr.replace_underscore field) +:+ ":** "
  +:+ format_cell (get row field "Not Available").

Definition host_info (row : listing) : list string :=
  host_line row <$> host_fields.

(** ** The script, top to bottom *)

(** What the widgets hold in a session.  The page is modelled by its
    data-bearing elements; the static introduction and the sidebar
    headers are left out. *)
Record session := {
  pick_price : option (Z * Z);
  pick_superhost : nat;
  pick_room : nat;
  pick_neighborhood : nat;
  pick_id : nat
}.

Inductive chart :=
  | boxplot_room (data : list listing)
  | bar_avg_price (data : list summary)
  | scatter_score (data : list listing) (title : string)
  | review_bar (data : list (string * cell float)).

(** What the script puts on the page, in order. *)
Inductive element :=
  | title (s : string)
  | subheader (s : string)
  | altair_chart (c : chart)
  | write (s : string)
  | warning (s : string).

(** Lines 133 to 168, run when [filtered_df] has rows. *)
Definition step3 (filtered : list listing) (s : session) : result (list element) :=
  match selectbox (available_ids filtered) (pick_id s) with
  | None => Raise IndexError
  | Some selected_id =>
      let* row := selected_row filtered selected_id in
      Ok ([subheader ("Review Breakdown for Listing ID " +:+ selected_id);
           altair_chart (review_bar (review_scores row));
           subheader ("Host Information:" +:+ selected_id)]
          ++ (write <$> host_info row))%list
  end.

(** Lines 109 to 170: the page below the Step 2 widgets. *)
Definition step2_page (filtered : list listing)
    (selected_room selected_neighborhood : cell string) (s : session)
    : result (list element) :=
  match filtered with
  | [] => Ok [warning "No listings match your selected room type and neighborhood."]
  | _ =>
      let* shown := step3 filtered s in
      Ok ([subheader "Price vs. Average Review Score";
           altair_chart (scatter_score filtered
             ("Price vs. Review Score in " +:+ format_cell selected_neighborhood
              +:+ " (" +:+ format_cell selected_room +:+ ")"))]
          ++ shown)%list
  end.

(** Lines 94 to 170, run when [base_df] has rows.  A selectbox without
    options returns Python's [None], which like NaN equals no cell. *)
Definition step2 (base : list listing) (s : session) : result (list element) :=
  let* rooms := available_rooms base in
  let selected_room := mjoin (selectbox rooms (pick_room s)) in
  let* neighborhoods := available_neighborhoods base in
  let selected_neighborhood := mjoin (selectbox neighborhoods (pick_neighborhood s)) in
  step2_page (filtered_df base selected_room selected_neighborhood)
             selected_room selected_neighborhood s.

Definition app `{SortValues} (listings_csv : list raw_listing) (s : session)
    : result (list element) :=
  let* frame := df listings_csv in
  let* lo := price_min frame in
  let* hi := price_max frame in
  let* selected_price := sidebar_slider lo hi (pick_price s) in
  let selected_superhost := default "Yes" (selectbox ["Yes"; "No"] (pick_superhost s)) in
  let base := base_df frame selected_price selected_superhost in
  match base with
  | [] => Ok [title "Airbnb Searching Dashboard";
              warning "No listings match your price and superhost filter."]
  | _ =>
      let* below := step2 base s in
      Ok ([title "Airbnb Searching Dashboard";
           subheader "Price Distribution by Room Type";
           altair_chart (boxplot_room base);
           subheader "Average Price by Neighborhood";
           altair_chart (bar_avg_price (neighborhood_avg base))]
          ++ below)%list
  end.

(** ** Two sorts that keep the promise of [sort_values]

    pandas hands the reversed column to numpy's [argsort] and reverses
    the answer; with a stable [kind] that would keep equal keys in the
    order of the grouped frame, with the default it need not.  The first
    sort below is a merge sort, the second the default kind. *)

Lemma fle_total (x y : float) : fle x y ∨ fle y x.
Proof.
  destruct x as [a|[]], y as [b|[]]; simpl; auto.
  destruct (Qlt_le_dec b a) as [Hlt|Hle].
  - right. apply Is_true_true, Qle_bool_iff, Qlt_le_weak, Hlt.
  - left. apply Is_true_true, Qle_bool_iff, Hle.
Qed.

Lemma fle_trans (x y z : float) : fle x y → fle y z → fle x z.
Proof.
  destruct x as [a|[]], y as [b|[]], z as [c|[]]; simpl; auto; try contradiction.
  rewrite !Is_true_true, !Qle_bool_iff. apply Qle_trans.
Qed.

Global Instance price_desc_total : Total price_desc.
Proof.
  intros a b. unfold price_desc.
  destruct (mean_price a) as [x|], (mean_price b) as [y|]; auto.
  destruct (fle_total x y); auto.
Qed.

Global Instance price_desc_trans : Transitive price_desc.
Proof.
  intros a b c. unfold price_desc.
  destruct (mean_price a) as [x|], (mean_price b) as [y|], (mean_price c) as [z|];
    auto; try contradiction.
  intros Hyx Hzy. exact (fle_trans _ _ _ Hzy Hyx).
Qed.

(** A merge sort on the frame as it stands. *)
#[refine] Instance merge_kind : SortValues := {|
  sort_values_desc := merge_sort price_desc |}.
Proof.
  - apply merge_sort_Permutation.
  - apply (Sorted_merge_sort price_desc).
Defined.

(** numpy's [argsort] of kind quicksort on a float64 array without NaN,
    which is what [sort_values] runs by default, in its scalar kernel
    ([aquicksort]): an introsort on an array of positions.  Segments of
    more than 17 positions are partitioned around the median of three,
    shorter ones are sorted by insertion.  When the depth limit is hit
    numpy turns to a heapsort; that branch is not modelled and gives
    [None].  A build of numpy that hands the array to a vector kernel
    orders equal keys in a way of its own; what is proved of the summary
    is proved for every [SortValues], that one included. *)
Module NumpySort.

Definition less (x y : float) : bool := negb (fle y x).

(** [v[a[i]]] *)
Definition key (v : list float) (a : list nat) (i : Z) : float :=
  default (Finite 0) (j ← a !! Z.to_nat i; v !! j).

Definition swap (a : list nat) (i j : Z) : list nat :=
  match a !! Z.to_nat i, a !! Z.to_nat j with
  | Some x, Some y => <[Z.to_nat i := y]> (<[Z.to_nat j := x]> a)
  | _, _ => a
  end.

(** [do ++pi; while (less(v[*pi], vp))] *)
Fixpoint scan_up (fuel : nat) (v : list float) (a : list nat) (vp : float) (pi : Z) : Z :=
  match fuel with
  | O => pi
  | S fuel' =>
      if less (key v a (pi + 1)) vp then scan_up fuel' v a vp (pi + 1) else (pi + 1)%Z
  end.

(** [do --pj; while (less(vp, v[*pj]))] *)
Fixpoint scan_down (fuel : nat) (v : list float) (a : list nat) (vp : float) (pj : Z) : Z :=
  match fuel with
  | O => pj
  | S fuel' =>
      if less vp (key v a (pj - 1)) then scan_down fuel' v a vp (pj - 1) else (pj - 1)%Z
  end.

Fixpoint partition_loop (fuel : nat) (v : list float) (a : list nat) (vp : float)
    (pi pj : Z) : list nat * Z :=
  match fuel with
  | O => (a, pi)
  | S fuel' =>
      let pi := scan_up (length a) v a vp pi in
      let pj := scan_down (length a) v a vp pj in
      if (pj <=? pi)%Z then (a, pi)
      else partition_loop fuel' v (swap a pi pj) vp pi pj
  end.

(** One partition of the segment from [pl] to [pr]: the array after it
    and the place of the pivot. *)
Definition partition (v : list float) (a : list nat) (pl pr : Z) : list nat * Z :=
  let pm := (pl + (pr - pl) / 2)%Z in
  let a := if less (key v a pm) (key v a pl) then swap a pm pl else a in
  let a := if less (key v a pr) (key v a pm) then swap a pr pm else a in
  let a := if less (key v a pm) (key v a pl) then swap a pm pl else a in
  let vp := key v a pm in
  let a := swap a pm (pr - 1) in
  let '(a, pi) := partition_loop (length a) v a vp pl (pr - 1) in
  (swap a pi (pr - 1), pi).

(** [while (pj > pl && less(vp, v[*pk])) *pj-- = *pk--] *)
Fixpoint shift_down (fuel : nat) (v : list float) (a : list nat) (vp : float)
    (pl pj : Z) : list nat * Z :=
  match fuel with
  | O => (a, pj)
  | S fuel' =>
      if (pl <? pj)%Z && less vp (key v a (pj - 1)) then
        shift_down fuel' v
          (<[Z.to_nat pj := default O (a !! Z.to_nat (pj - 1))]> a) vp pl (pj - 1)
      else (a, pj)
  end.

Definition insertion_sort (v : list float) (a : list nat) (pl pr : Z) : list nat :=
  foldl (λ a pi,
           let vi := default O (a !! Z.to_nat pi) in
           let '(a, pj) := shift_down (length a) v a (key v a pi) pl pi in
           <[Z.to_nat pj := vi]> a)
        a (seqZ (pl + 1) (pr - pl)).

(** The sort of one segment.  [popped] tells a segment taken off the
    stack, where the depth is tested, from the one the loop goes on
    with. *)
Fixpoint segment (fuel : nat) (v : list float) (a : list nat) (pl pr cdepth : Z)
    (popped : bool) : option (list nat) :=
  match fuel with
  | O => None
  | S fuel' =>
      if popped && (cdepth <? 0)%Z then None
      else if (16 <? pr - pl)%Z then
        let '(a, pi) := partition v a pl pr in
        if (pi - pl <? pr - pi)%Z then
          a ← segment fuel' v a pl (pi - 1) (cdepth - 1) false;
          segment fuel' v a (pi + 1) pr (cdepth - 1) true
        else
          a ← segment fuel' v a (pi + 1) pr (cdepth - 1) false;
          segment fuel' v a pl (pi - 1) (cdepth - 1) true
      else Some (insertion_sort v a pl pr)
  end.

Definition argsort (v : list float) : option (list nat) :=
  let n := length v in
  segment (S n) v (seq 0 n) 0 (Z.of_nat n - 1) (2 * Z.log2 (Z.of_nat n)) true.

End NumpySort.

(** pandas' [nargsort] for a descending sort with NaN last: the keys
    that are not NaN go to [argsort] in reverse order, the answer is
    reversed, and the places of the NaN keys follow. *)
Definition nargsort (keys : list (cell float)) : option (list nat) :=
  let places := imap (λ i k, (i, k)) keys in
  let non_nans := reverse (omap (λ ik, k ← ik.2; Some (ik.1, k)) places) in
  let nan_idx := omap (λ ik, if ik.2 is None then Some ik.1 else None) places in
  match NumpySort.argsort (snd <$> non_nans) with
  | Some perm => Some (reverse (omap (λ j, fst <$> non_nans !! j) perm) ++ nan_idx)%list
  | None => None
  end.

(** [.sort_values('price', ascending=False)] with the default kind, where
    the model of numpy's sort has an answer. *)
Definition sort_values_quicksort (rows : list summary) : option (list summary) :=
  match nargsort (mean_price <$> rows) with
  | Some indexer => Some (omap (λ i, rows !! i) indexer)
  | None => None
  end.

Global Instance Q_eq_dec : EqDecision Q.
Proof. solve_decision. Defined.

Global Instance float_eq_dec : EqDecision float.
Proof. solve_decision. Defined.

Global Instance summary_eq_dec : EqDecision summary.
Proof. solve_decision. Defined.

(** The default kind as a sort that keeps the promise: the answer of
    [sort_values_quicksort] wherever it is one and is a sorted
    rearrangement of the frame, a merge sort elsewhere. *)
#[refine] Instance quicksort_kind : SortValues := {|
  sort_values_desc l :=
    match sort_values_quicksort l with
    | Some out =>
        if decide (out ≡ₚ l ∧ Sorted price_desc out) then out
        else merge_sort price_desc l
    | None => merge_sort price_desc l
    end |}.
Proof.
  - intros l. destruct (sort_values_quicksort l) as [out|];
      [case_decide as Hout; [by destruct Hout|]|]; apply merge_sort_Permutation.
  - intros l. destruct (sort_values_quicksort l) as [out|];
      [case_decide as Hout; [by destruct Hout|]|]; apply (Sorted_merge_sort price_desc).
Defined.

(** ** Sample data *)

Definition ex_raw (i : Z) (p : cell string) (superhost : cell string)
    (host_nb nb : cell string) (extra : gmap string (cell string)) : raw_listing :=
  {| raw_id := IdInt i;
     raw_price := PriceText <$> p;
     raw_host_is_superhost := superhost;
     raw_room_type := Some "Entire home/apt";
     raw_host_neighbourhood := host_nb;
     raw_neighbourhood_cleansed := nb;
     raw_review_scores_rating := Some (Finite 4);
     raw_review_scores_accuracy := Some (Finite 5);
     raw_review_scores_cleanliness := Some (Finite 3);
     raw_review_scores_checkin := Some (Finite 5);
     raw_review_scores_communication := Some (Finite 4);
     raw_review_scores_location := Some (Finite 5);
     raw_picture_url := Some "https://a0.muscache.com/pictures/1.jpg";
     raw_host_url := Some "https://www.airbnb.com/users/show/1";
     raw_host_response_rate := Some "90%";
     raw_others := extra |}.

Definition ex_listing (i : string) (p : Q) (superhost : string) (nb : string) : listing :=
  {| id := i;
     price := Some (Finite p);
     host_is_superhost := Some superhost;
     room_type := Some "Entire home/apt";
     host_neighbourhood := Some "Mission";
     neighbourhood_cleansed := Some nb;
     review_scores_rating := Some (Finite 4);
     review_scores_accuracy := Some (Finite 5);
     review_scores_cleanliness := Some (Finite 3);
     review_scores_checkin := Some (Finite 5);
     review_scores_communication := Some (Finite 4);
     review_scores_location := Some (Finite 5);
     avg_review_score := Some (Finite (13 # 3));
     picture_url := Some "https://a0.muscache.com/pictures/1.jpg";
     host_url := Some "https://www.airbnb.com/users/show/1";
     host_response_rate := Some "90%";
     others := ∅ |}.

(** Eighteen listings at one price, each in a neighbourhood of its own. *)
Definition ex_tied_neighbourhoods : list string :=
  ["Bayview"; "Bernal Heights"; "Castro"; "Chinatown"; "Excelsior"; "Glen Park";
   "Haight Ashbury"; "Inner Richmond"; "Inner Sunset"; "Lakeshore"; "Marina";
   "Mission"; "Nob Hill"; "Noe Valley"; "North Beach"; "Outer Mission";
   "Pacific Heights"; "Potrero Hill"].

Definition ex_tied_view : list listing :=
  imap (λ i nb, ex_listing (pretty (Z.of_nat (S i))) 100 "Yes" nb) ex_tied_neighbourhoods.


Definition ex_session : session :=
  {| pick_price := None; pick_superhost := 0; pick_room := 0;
     pick_neighborhood := 0; pick_id := 0 |}.

(** ** Decimal price texts *)







(** ** Two claims in the specification's wording *)

(** The order the specification words for C3: mean price descending, and
    of two rows with the same mean price the one with the lesser name
    first. *)
Definition mean_then_name (a b : summary) : Prop :=
  price_desc a b ∧ (price_desc b a → str_le (neighbourhood a) (neighbourhood b)).

Global Instance mean_then_name_dec : RelDecision mean_then_name.
Proof. intros a b. unfold mean_then_name. apply _. Defined.



(** ** Checks on sample inputs *)

Example parse_plain : PyFloat.parse "1234.50" = Some (Some (Finite (2469 # 2))).
Proof. reflexivity. Qed.
Example parse_exp :
  PyFloat.parse " 1_0.5e-1 " = Some (Some (Finite (4728779608739021 # 4503599627370496))).
Proof. vm_compute. reflexivity. Qed.
Example parse_rounds :
  PyFloat.parse "100.00000000000000001" = Some (Some (Finite 100))
  ∧ PyFloat.parse "9007199254740993" = Some (Some (Finite 9007199254740992))
  ∧ PyFloat.parse "1e400" = Some (Some (Inf false))
  ∧ PyFloat.parse "2.4703282292062327e-324" = Some (Some (Finite 0)).
Proof. repeat split; vm_compute; reflexivity. Qed.
Example parse_space :
  PyFloat.parse (String (ascii_of_N 9) "7 ") = Some (Some (Finite 7))
  ∧ PyFloat.parse (String (ascii_of_N 28) "7") = None.
Proof. split; vm_compute; reflexivity. Qed.
Example parse_inf : PyFloat.parse "-Infinity" = Some (Some (Inf true)).
Proof. reflexivity. Qed.
Example parse_bad : PyFloat.parse "12 USD" = None.
Proof. reflexivity. Qed.
Example parse_dot : PyFloat.parse "." = None ∧ PyFloat.parse "1." = Some (Some (Finite 1))
  ∧ PyFloat.parse ".5" = Some (Some (Finite (1 # 2))) ∧ PyFloat.parse "1e" = None
  ∧ PyFloat.parse "" = None ∧ PyFloat.parse "1__0" = None.
Proof. repeat split; reflexivity. Qed.

Example avg_review_score_exact :
  mean [Some (Finite 4); Some (Finite 5); Some (Finite 3);
        Some (Finite 5); Some (Finite 4); Some (Finite 5)] = Some (Finite (13 # 3)).
Proof. reflexivity. Qed.

Example df_sample :
  df [ex_raw 12345 (Some "$1,250.00") (Some "t") (Some "Mission") (Some "Mission") ∅]
  = Ok [ex_listing "12345" 1250 "Yes" "Mission"].
Proof. vm_compute. reflexivity. Qed.

(** ** Facts about the building blocks *)

Section unique.
Context `{EqDecision A}.
Implicit Types l : list A.

Lemma elem_of_unique l x : x ∈ unique l ↔ x ∈ l.
Proof.
  induction l as [|y l IH]; simpl; [done|].
  rewrite !elem_of_cons, list_elem_of_filter, IH.
  destruct (decide (x = y)); naive_solver.
Qed.

Lemma unique_snoc l x :
  unique (l ++ [x]) = (unique l ++ if decide (x ∈ l) then [] else [x])%list.
Proof.
  induction l as [|y l IH]; simpl; [done|].
  rewrite IH, filter_app. f_equal. f_equal.
  destruct (decide (x = y)) as [->|Hxy].
  - rewrite (decide_True (P := y ∈ y :: l)) by apply list_elem_of_here.
    destruct (decide (y ∈ l)); [done|]. by rewrite filter_cons_False by naive_solver.
  - destruct (decide (x ∈ l)) as [Hx|Hx].
    + by rewrite decide_True by by apply list_elem_of_further.
    + rewrite decide_False by (rewrite elem_of_cons; naive_solver).
      by rewrite filter_cons_True.
Qed.

Lemma NoDup_unique l : NoDup (unique l).
Proof.
  induction l as [|y l IH]; simpl; constructor.
  - rewrite list_elem_of_filter. naive_solver.
  - by apply NoDup_filter.
Qed.
End unique.

Lemma elem_of_dropna_cells {A} (col : list (cell A)) (x : A) :
  x ∈ dropna_cells col ↔ Some x ∈ col.
Proof.
  unfold dropna_cells. rewrite list_elem_of_omap. split.
  - intros (c & Hc & Hcx). unfold Datatypes.id in Hcx. by subst.
  - intros Hx. by exists (Some x).
Qed.

(** The Step 1 test on one row, spelled out. *)
Lemma step1_test (r : listing) (lo hi : Z) (sel : string) :
  ge_int (price r) lo && le_int (price r) hi
    && eq_str (host_is_superhost r) (Some sel)
  ↔ (∃ p, price r = Some (Finite p) ∧ (inject_Z lo <= p)%Q ∧ (p <= inject_Z hi)%Q)
    ∧ host_is_superhost r = Some sel.
Proof.
  rewrite !andb_True. unfold ge_int, le_int, eq_str.
  destruct (price r) as [[p|[]]|], (host_is_superhost r) as [f|]; simpl;
    rewrite ?bool_decide_spec, ?Is_true_true, ?Qle_bool_iff; naive_solver.
Qed.

Lemma eq_str_spec (c sel : cell string) :
  eq_str c sel ↔ ∃ s, c = Some s ∧ sel = Some s.
Proof.
  destruct c, sel; simpl; rewrite ?bool_decide_spec; naive_solver.
Qed.

(** ** Step 1 *)

(** C1. A row is in [base_df] exactly when it is a row of the frame, its
    price lies between the two bounds, both included, and its superhost
    cell is the selected value. *)
Theorem base_df_membership (frame : list listing) (lo hi : Z) (sel : string)
    (r : listing) :
  r ∈ base_df frame (lo, hi) sel ↔
  r ∈ frame
  ∧ (∃ p, price r = Some (Finite p) ∧ (inject_Z lo <= p)%Q ∧ (p <= inject_Z hi)%Q)
  ∧ host_is_superhost r = Some sel.
Proof.
  unfold base_df. rewrite list_elem_of_filter. simpl.
  rewrite step1_test. tauto.
Qed.

(** ** Step 2 *)

(** C10. Every row of [filtered_df] is a row of the [base_df] it was taken
    from, so it passes the Step 1 test and the Step 2 test together. *)
Theorem filtered_df_within_base_df (frame : list listing) (lo hi : Z)
    (sel : string) (room nb : cell string) (r : listing) :
  r ∈ filtered_df (base_df frame (lo, hi) sel) room nb →
  r ∈ base_df frame (lo, hi) sel
  ∧ ((∃ p, price r = Some (Finite p) ∧ (inject_Z lo <= p)%Q ∧ (p <= inject_Z hi)%Q)
     ∧ host_is_superhost r = Some sel)
  ∧ (∃ rt n, room_type r = Some rt ∧ room = Some rt
             ∧ neighbourhood_cleansed r = Some n ∧ nb = Some n).
Proof.
  unfold filtered_df. rewrite list_elem_of_filter, andb_True, !eq_str_spec.
  intros [[(rt & Hrt & ->) (n & Hn & ->)] Hbase].
  split; [done|]. split.
  - unfold base_df in Hbase. apply list_elem_of_filter in Hbase as [Htest _].
    simpl in Htest. by apply step1_test in Htest.
  - eauto 10.
Qed.

Lemma filtered_df_within_base_df_witness :
  let r := ex_listing "12345" 1250 "Yes" "Mission" in
  r ∈ base_df [r] (1000, 1500)%Z "Yes"
  ∧ ((∃ p, price r = Some (Finite p) ∧ (inject_Z 1000 <= p)%Q ∧ (p <= inject_Z 1500)%Q)
     ∧ host_is_superhost r = Some "Yes")
  ∧ (∃ rt n, room_type r = Some rt ∧ Some "Entire home/apt" = Some rt
             ∧ neighbourhood_cleansed r = Some n ∧ Some "Mission" = Some n).
Proof.
  intros r.
  apply (filtered_df_within_base_df [r] 1000 1500 "Yes"
           (Some "Entire home/apt") (Some "Mission") r).
  vm_compute. apply list_elem_of_here.
Defined.

(** ** Step 3 *)

Lemma selectbox_elem_of {A} (options : list A) (pick : nat) (x : A) :
  selectbox options pick = Some x → x ∈ options.
Proof.
  unfold selectbox. destruct (options !! pick) as [y|] eqn:Hy.
  - intros [= ->]. by eapply list_elem_of_lookup_2.
  - destruct options; simpl; [done|]. intros [= ->]. apply list_elem_of_here.
Qed.

Lemma selectbox_is_Some {A} (options : list A) (pick : nat) :
  options ≠ [] → is_Some (selectbox options pick).
Proof.
  unfold selectbox. destruct (options !! pick); [eauto|].
  destruct options; [done|]. simpl. eauto.
Qed.

Lemma selected_row_Ok (filtered : list listing) (i : string) (r : listing) :
  selected_row filtered i = Ok r → id r = i ∧ r ∈ filtered.
Proof.
  unfold selected_row.
  destruct (filter _ filtered) as [|r' rest] eqn:Hf; [done|].
  intros [= ->].
  assert (r ∈ filter (λ r, id r = i) filtered) as Hin
    by (rewrite Hf; apply list_elem_of_here).
  by apply list_elem_of_filter in Hin.
Qed.

Lemma elem_of_available_ids (filtered : list listing) (i : string) :
  i ∈ available_ids filtered ↔ ∃ r, i = id r ∧ r ∈ filtered.
Proof. unfold available_ids. by rewrite elem_of_unique, list_elem_of_fmap. Qed.

Lemma selected_row_absent (filtered : list listing) (i : string) :
  i ∉ available_ids filtered → selected_row filtered i = Raise IndexError.
Proof.
  intros Hi. unfold selected_row.
  destruct (filter _ filtered) as [|r rest] eqn:Hf; [done|].
  exfalso. apply Hi, elem_of_available_ids.
  assert (r ∈ filter (λ r, id r = i) filtered) as Hin
    by (rewrite Hf; apply list_elem_of_here).
  apply list_elem_of_filter in Hin as [<- Hin]. eauto.
Qed.

(** The id of a row of the frame is always found. *)
Lemma selected_row_of_member (filtered : list listing) (r0 : listing) :
  r0 ∈ filtered → ∃ r, selected_row filtered (id r0) = Ok r.
Proof.
  intros Hr0. unfold selected_row.
  destruct (filter _ filtered) as [|r rest] eqn:Hf; [|eauto].
  exfalso. by eapply (filter_nil_not_elem_of _ _ r0 Hf).
Qed.

(** C9. Looking up any id out of the distinct ids of [filtered_df]
    succeeds, and the row it returns is a row of [filtered_df] bearing
    that id. *)
Theorem selected_row_round_trip (filtered : list listing) (i : string) :
  i ∈ available_ids filtered →
  ∃ r, selected_row filtered i = Ok r ∧ id r = i ∧ r ∈ filtered.
Proof.
  intros (r0 & -> & Hr0)%elem_of_available_ids.
  destruct (selected_row_of_member filtered r0 Hr0) as [r Hsel].
  exists r. split; [done|]. by apply selected_row_Ok.
Qed.

Lemma selected_row_round_trip_witness :
  let view := [ex_listing "777" 80 "Yes" "Mission"; ex_listing "12345" 1250 "Yes" "Mission"] in
  ∃ r, selected_row view "12345" = Ok r ∧ id r = "12345" ∧ r ∈ view.
Proof.
  intros view. apply (selected_row_round_trip view "12345").
  vm_compute. apply list_elem_of_further, list_elem_of_here.
Defined.

(** C8. After a successful lookup the review breakdown has exactly six
    rows, labelled Rating, Accuracy, Cleanliness, Check-in, Communication
    and Location in that order, each carrying the selected row's cell of
    the matching review column. *)
Theorem review_scores_breakdown (filtered : list listing) (i : string)
    (row : listing) :
  selected_row filtered i = Ok row →
  row ∈ filtered ∧ id row = i
  ∧ length (review_scores row) = 6
  ∧ review_scores row =
      [("Rating", review_scores_rating row);
       ("Accuracy", review_scores_accuracy row);
       ("Cleanliness", review_scores_cleanliness row);
       ("Check-in", review_scores_checkin row);
       ("Communication", review_scores_communication row);
       ("Location", review_scores_location row)].
Proof.
  intros [Hid Hin]%selected_row_Ok. repeat split; done.
Qed.

Lemma review_scores_breakdown_witness :
  let row := ex_listing "12345" 1250 "Yes" "Mission" in
  row ∈ [row] ∧ id row = "12345"
  ∧ length (review_scores row) = 6
  ∧ review_scores row =
      [("Rating", Some (Finite 4)); ("Accuracy", Some (Finite 5));
       ("Cleanliness", Some (Finite 3)); ("Check-in", Some (Finite 5));
       ("Communication", Some (Finite 4)); ("Location", Some (Finite 5))].
Proof.
  intros row. apply (review_scores_breakdown [row] "12345" row). reflexivity.
Defined.





(** ** Load and clean *)

Lemma mapM_Ok {A B} (f : A → result B) (l : list A) (ys : list B) :
  mapM f l = Ok ys ↔ Forall2 (λ x y, f x = Ok y) l ys.
Proof.
  revert ys. induction l as [|x l IH]; intros ys; simpl.
  - split; [intros [= <-]; constructor | by inversion 1].
  - destruct (f x) as [y|e] eqn:Hx; simpl.
    + destruct (mapM f l) as [ys'|e] eqn:Hl; simpl.
      * split.
        -- intros [= <-]. constructor; [done|]. by apply IH.
        -- inversion 1 as [|? y' ? ys'' Hy Hys]; subst.
           apply IH in Hys. congruence.
      * split; [done|]. inversion 1 as [|? y' ? ys'' Hy Hys]; subst.
        apply IH in Hys. done.
    + split; [done|]. inversion 1; congruence.
Qed.



Lemma elem_of_dropna (subset : list string) (frame : list listing) (r : listing) :
  r ∈ dropna subset frame ↔
  r ∈ frame ∧ ∀ col, col ∈ subset → isna_col r col = false.
Proof.
  unfold dropna. rewrite list_elem_of_filter, forallb_True, Forall_forall.
  split.
  - intros [H1 H2]. split; [done|].
    intros col Hcol. specialize (H1 col Hcol). by destruct (isna_col r col).
  - intros [H1 H2]. split; [|done].
    intros col Hcol. by rewrite (H2 col Hcol).
Qed.

Lemma isna_false {A} (c : cell A) : isna c = false ↔ is_Some c.
Proof.
  destruct c; simpl.
  - split; eauto.
  - split; [done | by intros [? ?]].
Qed.

Lemma mapM_Ok_elem_of {A B} (f : A → result B) (l : list A) (ys : list B) (y : B) :
  mapM f l = Ok ys → y ∈ ys → ∃ x, x ∈ l ∧ f x = Ok y.
Proof.
  rewrite mapM_Ok. induction 1 as [|x y' l ys Hxy _ IH]; [by inversion 1|].
  rewrite elem_of_cons. intros [->|Hy].
  - exists x. split; [apply list_elem_of_here|done].
  - destruct (IH Hy) as (x' & ? & ?). exists x'. split; [by apply list_elem_of_further|done].
Qed.

Lemma df_Ok (listings_csv : list raw_listing) (frame : list listing) :
  df listings_csv = Ok frame ↔
  ∃ rows, mapM assign_columns listings_csv = Ok rows
    ∧ frame = dropna tooltip_columns (dropna review_columns
        (dropna ["price"; "room_type"; "host_neighbourhood"; "host_is_superhost"] rows)).
Proof.
  unfold df. destruct (mapM assign_columns listings_csv) as [rows|e]; simpl.
  - split; [intros [= <-]; eauto | intros (? & [= <-] & ->); done].
  - split; [done | intros (? & [=] & _)].
Qed.

Lemma map_superhost_Some (c : cell string) :
  is_Some (map_superhost c) → map_superhost c = Some "Yes" ∨ map_superhost c = Some "No".
Proof.
  destruct c as [s|]; simpl; [|by intros [? ?]].
  repeat case_bool_decide; auto. by intros [? ?].
Qed.

(** Reads off a column test of [dropna] for one named column. *)
Local Ltac kept H col :=
  let Hc := fresh "Hc" in
  pose proof (H col ltac:(apply (bool_decide_unpack _); vm_compute; exact I)) as Hc;
  vm_compute in Hc; apply isna_false in Hc.

(** What the three [dropna] calls do enforce on every row of [df]. *)
Lemma df_enforced (listings_csv : list raw_listing) (frame : list listing)
    (r : listing) :
  df listings_csv = Ok frame → r ∈ frame →
  is_Some (price r) ∧ is_Some (room_type r) ∧ is_Some (host_neighbourhood r)
  ∧ (host_is_superhost r = Some "Yes" ∨ host_is_superhost r = Some "No")
  ∧ Forall (λ c : cell float, is_Some c)
      [review_scores_rating r; review_scores_accuracy r; review_scores_cleanliness r;
       review_scores_checkin r; review_scores_communication r; review_scores_location r]
  ∧ is_Some (picture_url r) ∧ is_Some (host_url r) ∧ is_Some (host_response_rate r)
  ∧ ∃ raw, raw ∈ listings_csv ∧ assign_columns raw = Ok r.
Proof.
  rewrite df_Ok. intros (rows & Hrows & ->).
  rewrite !elem_of_dropna. intros [[[Hr Hess] Hrev] Htip].
  destruct (mapM_Ok_elem_of _ _ _ _ Hrows Hr) as (raw & Hraw & Hassign).
  kept Hess "price". kept Hess "room_type". kept Hess "host_neighbourhood".
  kept Hess "host_is_superhost".
  kept Hrev "review_scores_rating". kept Hrev "review_scores_accuracy".
  kept Hrev "review_scores_cleanliness". kept Hrev "review_scores_checkin".
  kept Hrev "review_scores_communication". kept Hrev "review_scores_location".
  kept Htip "picture_url". kept Htip "host_url". kept Htip "host_response_rate".
  repeat split; try done.
  - unfold assign_columns in Hassign.
    destruct (price_astype_float (raw_price raw)); simpl in Hassign; [|done].
    injection Hassign as <-. simpl in *. by apply map_superhost_Some.
  - repeat constructor; done.
  - eauto.
Qed.

(** C2 (the code departs from it).  Line 14 tests [host_neighbourhood],
    but Step 2 and the grouping read [neighbourhood_cleansed], which no
    [dropna] names: a row whose [neighbourhood_cleansed] is missing stays
    in [df], and a row missing only [host_neighbourhood] is dropped. *)
Theorem neighbourhood_cleansed_unchecked :
  (∃ frame, df [ex_raw 5 (Some "$70.00") (Some "t") (Some "Mission") None ∅] = Ok frame
     ∧ (λ r, (id r, host_neighbourhood r, neighbourhood_cleansed r)) <$> frame
       = [("5", Some "Mission", None)])
  ∧ df [ex_raw 6 (Some "$70.00") (Some "t") None (Some "Mission") ∅] = Ok [].
Proof.
  split; [eexists; split|]; vm_compute; reflexivity.
Qed.

(** Downstream of it: next to a named neighbourhood the missing one makes
    [sorted] of line 98 raise. *)
Example missing_neighbourhood_breaks_step2 :
  @app merge_kind
    [ex_raw 5 (Some "$70.00") (Some "t") (Some "Mission") None ∅;
     ex_raw 7 (Some "$80.00") (Some "t") (Some "Mission") (Some "Mission") ∅]
    ex_session
  = Raise TypeError.
Proof. vm_compute. reflexivity. Qed.

(** *** Prices *)




Example negative_price_kept :
  ∃ frame,
    df [ex_raw 3 (Some "-$5.00") (Some "t") (Some "Mission") (Some "Mission") ∅] = Ok frame
    ∧ price <$> frame = [Some (Finite (-5))].
Proof. eexists. split; vm_compute; reflexivity. Qed.


(** *** Reading a plain decimal *)











Example price_text_read :
  price_astype_float (Some (PriceText "$1,250.00")) = Ok (Some (Finite 1250))
  ∧ price_astype_float (Some (PriceText "-$0.10"))
    = Ok (Some (Finite (- 3602879701896397 # 36028797018963968))).
Proof. split; vm_compute; reflexivity. Qed.

(** *** A missing price *)






(** *** The price slider at its full range *)

Lemma fle_refl (x : float) : fle x x.
Proof.
  destruct x as [a|[]]; simpl; try done.
  apply Is_true_true, Qle_bool_iff, Qle_refl.
Qed.

Lemma foldl_fmin_spec (x : float) (xs : list float) :
  foldl fmin x xs ∈ x :: xs ∧ ∀ y, y ∈ x :: xs → fle (foldl fmin x xs) y.
Proof.
  revert x. induction xs as [|z xs IH]; intros x; simpl.
  - split; [apply list_elem_of_here|].
    intros y ->%list_elem_of_singleton. apply fle_refl.
  - destruct (IH (fmin x z)) as [Hin Hle]. split.
    + apply elem_of_cons in Hin as [->|Hin].
      * unfold fmin. destruct (fle x z); set_solver.
      * set_solver.
    + intros y Hy.
      assert (fle (foldl fmin (fmin x z) xs) (fmin x z)) as Hm
        by (apply Hle, list_elem_of_here).
      apply elem_of_cons in Hy as [->|Hy]; [|apply elem_of_cons in Hy as [->|Hy]].
      * eapply fle_trans; [exact Hm|]. unfold fmin.
        destruct (fle x z) eqn:Hxz; [apply fle_refl|].
        destruct (fle_total x z) as [H|H]; [by rewrite Hxz in H|done].
      * eapply fle_trans; [exact Hm|]. unfold fmin.
        destruct (fle x z) eqn:Hxz; [by rewrite Hxz|apply fle_refl].
      * apply Hle. by apply list_elem_of_further.
Qed.

Lemma foldl_fmax_spec (x : float) (xs : list float) :
  foldl fmax x xs ∈ x :: xs ∧ ∀ y, y ∈ x :: xs → fle y (foldl fmax x xs).
Proof.
  revert x. induction xs as [|z xs IH]; intros x; simpl.
  - split; [apply list_elem_of_here|].
    intros y ->%list_elem_of_singleton. apply fle_refl.
  - destruct (IH (fmax x z)) as [Hin Hle]. split.
    + apply elem_of_cons in Hin as [->|Hin].
      * unfold fmax. destruct (fle x z); set_solver.
      * set_solver.
    + intros y Hy.
      assert (fle (fmax x z) (foldl fmax (fmax x z) xs)) as Hm
        by (apply Hle, list_elem_of_here).
      apply elem_of_cons in Hy as [->|Hy]; [|apply elem_of_cons in Hy as [->|Hy]].
      * eapply fle_trans; [|exact Hm]. unfold fmax.
        destruct (fle x z) eqn:Hxz; [by rewrite Hxz|apply fle_refl].
      * eapply fle_trans; [|exact Hm]. unfold fmax.
        destruct (fle x z) eqn:Hxz; [apply fle_refl|].
        destruct (fle_total x z) as [H|H]; [by rewrite Hxz in H|done].
      * apply Hle. by apply list_elem_of_further.
Qed.

(** [Series.min()] is a cell of the column and lies below every other. *)
Lemma col_min_spec (col : list (cell float)) (m : float) :
  col_min col = Some m → Some m ∈ col ∧ ∀ y, Some y ∈ col → fle m y.
Proof.
  unfold col_min. destruct (dropna_cells col) as [|x xs] eqn:Hcol; [done|].
  intros [= <-]. destruct (foldl_fmin_spec x xs) as [Hin Hle].
  rewrite <- Hcol in Hin, Hle. split.
  - by apply elem_of_dropna_cells.
  - intros y Hy. by apply Hle, elem_of_dropna_cells.
Qed.

Lemma col_max_spec (col : list (cell float)) (m : float) :
  col_max col = Some m → Some m ∈ col ∧ ∀ y, Some y ∈ col → fle y m.
Proof.
  unfold col_max. destruct (dropna_cells col) as [|x xs] eqn:Hcol; [done|].
  intros [= <-]. destruct (foldl_fmax_spec x xs) as [Hin Hle].
  rewrite <- Hcol in Hin, Hle. split.
  - by apply elem_of_dropna_cells.
  - intros y Hy. by apply Hle, elem_of_dropna_cells.
Qed.

Lemma int_whole (c : cell float) (n k : Z) :
  c = Some (Finite (inject_Z k)) → int c = Ok n → n = k.
Proof. intros -> [= <-]. simpl. apply Z.quot_1_r. Qed.

Lemma filter_ext_in {A} (P1 P2 : A → Prop)
    `{!∀ x, Decision (P1 x), !∀ x, Decision (P2 x)} (l : list A) :
  (∀ x, x ∈ l → P1 x ↔ P2 x) → filter P1 l = filter P2 l.
Proof.
  induction l as [|a l IH]; intros Hiff; [done|].
  rewrite !filter_cons, IH by (intros; apply Hiff; by apply list_elem_of_further).
  apply decide_ext, Hiff, list_elem_of_here.
Qed.

(** Where the full range does keep every listing of the selected kind:
    a frame whose prices are all whole numbers, as the prices of the
    listings file are when they carry no cents. *)
Lemma full_range_keeps_whole_prices (frame : list listing) (lo hi : Z)
    (sel : string) :
  price_min frame = Ok lo → price_max frame = Ok hi →
  (∀ r, r ∈ frame → ∃ n : Z, price r = Some (Finite (inject_Z n))) →
  base_df frame (slider lo hi None) sel
  = filter (λ r, host_is_superhost r = Some sel) frame.
Proof.
  unfold price_min, price_max. intros Hlo Hhi Hwhole.
  destruct (col_min (price <$> frame)) as [m|] eqn:Hmin; [|done].
  destruct (col_max (price <$> frame)) as [M|] eqn:Hmax; [|done].
  apply col_min_spec in Hmin as [Hm_in Hm_le].
  apply col_max_spec in Hmax as [HM_in HM_le].
  apply list_elem_of_fmap in Hm_in as (rm & Hrm & Hrm_in).
  apply list_elem_of_fmap in HM_in as (rM & HrM & HrM_in).
  destruct (Hwhole rm Hrm_in) as [nm Hnm]. destruct (Hwhole rM HrM_in) as [nM HnM].
  assert (m = Finite (inject_Z nm)) as -> by congruence.
  assert (M = Finite (inject_Z nM)) as -> by congruence.
  apply (int_whole _ _ nm) in Hlo; [|done]. apply (int_whole _ _ nM) in Hhi; [|done].
  subst lo hi. unfold base_df, slider. simpl.
  apply filter_ext_in. intros r Hr.
  destruct (Hwhole r Hr) as [n Hn]. rewrite !andb_True, eq_str_spec.
  assert (ge_int (price r) nm) as Hge.
  { rewrite Hn. simpl. apply (Hm_le (Finite (inject_Z n))).
    rewrite <- Hn. by apply list_elem_of_fmap_2. }
  assert (le_int (price r) nM) as Hle.
  { rewrite Hn. simpl. apply (HM_le (Finite (inject_Z n))).
    rewrite <- Hn. by apply list_elem_of_fmap_2. }
  split; [intros [_ (s & -> & [= ->])]; done | intros ->; eauto].
Qed.

(** C6 (the code departs from it).  The slider's ends are the least and
    the greatest price cut to integers, so at its full range a greatest
    price with cents lies above the upper end: of two superhost listings
    at 50.00 and 1,099.50 the range is (50, 1099) and [base_df] holds the
    first only. *)
Theorem full_range_drops_top_price :
  ∃ frame lo hi,
    df [ex_raw 1 (Some "$50.00") (Some "t") (Some "Mission") (Some "Mission") ∅;
        ex_raw 2 (Some "$1,099.50") (Some "t") (Some "Mission") (Some "Mission") ∅]
    = Ok frame
    ∧ price_min frame = Ok lo ∧ price_max frame = Ok hi
    ∧ slider lo hi None = (50, 1099)%Z
    ∧ id <$> filter (λ r, host_is_superhost r = Some "Yes") frame = ["1"; "2"]
    ∧ id <$> base_df frame (slider lo hi None) "Yes" = ["1"].
Proof.
  do 3 eexists. split; [vm_compute; reflexivity|].
  repeat split; vm_compute; reflexivity.
Qed.

(** ** Host information *)

(** What [get] answers for a host field, by what the row holds. *)
Lemma get_host_name (row : listing) (default : string) :
  get row "host_name" default =
    match others row !! "host_name" with
    | Some c => c
    | None => Some default
    end.
Proof.
  unfold get, text_columns. by rewrite !lookup_insert_ne.
Qed.

(** The line written for [host_name]: the marker only when the Series
    has no such label. *)
Lemma host_line_host_name (row : listing) :
  host_line row "host_name"
  = "**Host Name:** " +:+
    match others row !! "host_name" with
    | Some (Some name) => name
    | Some None => "nan"
    | None => "Not Available"
    end.
Proof.
  unfold host_line. rewrite get_host_name.
  by destruct (others row !! "host_name") as [[name|]|].
Qed.

(** C5 (the code departs from it).  The default of [get] stands in only
    for a column the file lacks.  In a file of two listings at different
    prices that has the [host_name] column, the listing whose
    [host_name] cell is empty passes the cleaning and both filters, is
    the one selected, and the script writes its host name as the raw
    missing value, [nan]; the marker shows for [host_acceptance_rate], a
    column this file lacks. *)
Theorem missing_host_name_written_as_nan :
  ∃ page,
    @app quicksort_kind
      [ex_raw 12345 (Some "$1,250.00") (Some "t") (Some "Mission") (Some "Mission")
         {[ "host_name" := None ]};
       ex_raw 777 (Some "$80.00") (Some "t") (Some "Mission") (Some "Mission")
         {[ "host_name" := Some "Ann" ]}]
      ex_session = Ok page
    ∧ subheader "Host Information:12345" ∈ page
    ∧ write "**Host Name:** nan" ∈ page
    ∧ write "**Host Acceptance Rate:** Not Available" ∈ page
    ∧ write "**Host Name:** Not Available" ∉ page.
Proof.
  eexists. split; [vm_compute; reflexivity|].
  split; [repeat constructor|]. split; [repeat constructor|].
  split; [repeat constructor|].
  intros Hin. repeat (apply elem_of_cons in Hin as [Hin|Hin]; [discriminate Hin|]).
  by apply elem_of_nil in Hin.
Qed.

(** ** Average price by neighbourhood *)

Lemma groupby_mean_keys (frame : list listing) :
  neighbourhood <$> groupby_mean frame
  = merge_sort str_le (unique (dropna_cells (neighbourhood_cleansed <$> frame))).
Proof.
  unfold groupby_mean. rewrite <- list_fmap_compose. apply list_fmap_id.
Qed.

Global Instance str_le_total : Total str_le.
Proof.
  intros a b. unfold str_le. destruct (String.leb_total a b) as [->| ->]; auto.
Qed.

(** The groups come in ascending key order. *)
Lemma groupby_mean_sorted (frame : list listing) :
  Sorted str_le (neighbourhood <$> groupby_mean frame).
Proof. rewrite groupby_mean_keys. apply (Sorted_merge_sort str_le). Qed.

(** Two neighbourhoods with the same mean price come out in the order
    of their names: a segment this short is sorted by insertion. *)
Example tie_of_two :
  neighbourhood <$> @neighborhood_avg quicksort_kind
    [ex_listing "1" 100 "Yes" "Castro"; ex_listing "2" 100 "Yes" "Mission"]
  = ["Castro"; "Mission"].
Proof. vm_compute. reflexivity. Qed.

(** Eighteen neighbourhoods with the same mean price: the partition
    of the scalar quicksort turns the middle of the frame round. *)
Example tie_of_eighteen :
  sort_values_quicksort (groupby_mean ex_tied_view)
  = Some (@neighborhood_avg quicksort_kind ex_tied_view)
  ∧ neighbourhood <$> @neighborhood_avg quicksort_kind ex_tied_view
    = ["Bayview"; "Bernal Heights"; "Pacific Heights"; "Outer Mission"; "North Beach";
       "Noe Valley"; "Nob Hill"; "Mission"; "Marina"; "Lakeshore"; "Inner Sunset";
       "Inner Richmond"; "Haight Ashbury"; "Glen Park"; "Excelsior"; "Chinatown";
       "Castro"; "Potrero Hill"].
Proof. split; vm_compute; reflexivity. Qed.






(** * Further properties of the script *)

(** ** Cleaning (lines 9 to 26) *)

(** X1. Every row of the cleaned frame has a price, a room type, a host
    neighbourhood, a superhost cell that reads Yes or No, all six review
    scores, a picture url, a host url and a host response rate. *)
Theorem df_rows_complete (listings_csv : list raw_listing) (frame : list listing)
    (r : listing) :
  df listings_csv = Ok frame → r ∈ frame →
  is_Some (price r) ∧ is_Some (room_type r) ∧ is_Some (host_neighbourhood r)
  ∧ (host_is_superhost r = Some "Yes" ∨ host_is_superhost r = Some "No")
  ∧ is_Some (review_scores_rating r) ∧ is_Some (review_scores_accuracy r)
  ∧ is_Some (review_scores_cleanliness r) ∧ is_Some (review_scores_checkin r)
  ∧ is_Some (review_scores_communication r) ∧ is_Some (review_scores_location r)
  ∧ is_Some (picture_url r) ∧ is_Some (host_url r) ∧ is_Some (host_response_rate r).
Proof.
  intros Hdf Hr.
  destruct (df_enforced _ _ _ Hdf Hr)
    as (Hp & Hrt & Hhn & Hsh & Hrev & Hpic & Hurl & Hrate & _).
  repeat (apply Forall_cons in Hrev as [? Hrev]).
  repeat split; done.
Qed.

Lemma df_rows_complete_witness :
  let r := ex_listing "12345" 1250 "Yes" "Mission" in
  is_Some (price r) ∧ is_Some (room_type r) ∧ is_Some (host_neighbourhood r)
  ∧ (host_is_superhost r = Some "Yes" ∨ host_is_superhost r = Some "No")
  ∧ is_Some (review_scores_rating r) ∧ is_Some (review_scores_accuracy r)
  ∧ is_Some (review_scores_cleanliness r) ∧ is_Some (review_scores_checkin r)
  ∧ is_Some (review_scores_communication r) ∧ is_Some (review_scores_location r)
  ∧ is_Some (picture_url r) ∧ is_Some (host_url r) ∧ is_Some (host_response_rate r).
Proof.
  intros r.
  apply (df_rows_complete
    [ex_raw 12345 (Some "$1,250.00") (Some "t") (Some "Mission") (Some "Mission") ∅;
     ex_raw 6 (Some "$70.00") (Some "t") None (Some "Mission") ∅]
    [r] r).
  - vm_compute. reflexivity.
  - apply list_elem_of_here.
Defined.

Lemma assign_columns_Ok (raw : raw_listing) (r : listing) :
  assign_columns raw = Ok r →
  id r = id_astype_str (raw_id raw)
  ∧ price_astype_float (raw_price raw) = Ok (price r)
  ∧ host_is_superhost r = map_superhost (raw_host_is_superhost raw)
  ∧ room_type r = raw_room_type raw
  ∧ neighbourhood_cleansed r = raw_neighbourhood_cleansed raw
  ∧ avg_review_score r
    = mean [review_scores_rating r; review_scores_accuracy r;
            review_scores_cleanliness r; review_scores_checkin r;
            review_scores_communication r; review_scores_location r]
  ∧ others r = raw_others raw.
Proof.
  unfold assign_columns.
  destruct (price_astype_float (raw_price raw)) as [p|e]; simpl; [|done].
  intros [= <-]. simpl. repeat split; done.
Qed.

(** X2. A cleaned row is a row of the file: it bears the text of that
    row's id and the price read from that row's price cell, its
    superhost cell reads Yes for the code [t] and No for the code [f]
    and no other code gets through, and every other column of the file
    (room type, both neighbourhoods, the six review scores, the two
    urls, the response rate and the columns the script does not name)
    is unchanged. *)
Theorem df_row_from_file (listings_csv : list raw_listing) (frame : list listing)
    (r : listing) :
  df listings_csv = Ok frame → r ∈ frame →
  ∃ raw, raw ∈ listings_csv
    ∧ id r = id_astype_str (raw_id raw)
    ∧ price_astype_float (raw_price raw) = Ok (price r)
    ∧ ((raw_host_is_superhost raw = Some "t" ∧ host_is_superhost r = Some "Yes")
       ∨ (raw_host_is_superhost raw = Some "f" ∧ host_is_superhost r = Some "No"))
    ∧ room_type r = raw_room_type raw
    ∧ host_neighbourhood r = raw_host_neighbourhood raw
    ∧ neighbourhood_cleansed r = raw_neighbourhood_cleansed raw
    ∧ review_scores_rating r = raw_review_scores_rating raw
    ∧ review_scores_accuracy r = raw_review_scores_accuracy raw
    ∧ review_scores_cleanliness r = raw_review_scores_cleanliness raw
    ∧ review_scores_checkin r = raw_review_scores_checkin raw
    ∧ review_scores_communication r = raw_review_scores_communication raw
    ∧ review_scores_location r = raw_review_scores_location raw
    ∧ picture_url r = raw_picture_url raw
    ∧ host_url r = raw_host_url raw
    ∧ host_response_rate r = raw_host_response_rate raw
    ∧ others r = raw_others raw.
Proof.
  intros Hdf Hr.
  destruct (df_enforced _ _ _ Hdf Hr)
    as (_ & _ & _ & Hsh & _ & _ & _ & _ & raw & Hraw & Hassign).
  exists raw. split; [done|].
  unfold assign_columns in Hassign.
  destruct (price_astype_float (raw_price raw)) as [p|e]; simpl in Hassign; [|done].
  injection Hassign as <-. simpl in *.
  repeat split; try done.
  unfold map_superhost in *.
  destruct (raw_host_is_superhost raw) as [code|]; [|by destruct Hsh].
  repeat case_bool_decide; subst; destruct Hsh as [?|?]; try done; auto.
Qed.

Lemma df_row_from_file_witness :
  let raw := ex_raw 12345 (Some "$1,250.00") (Some "t") (Some "Mission") (Some "Mission") ∅ in
  let r := ex_listing "12345" 1250 "Yes" "Mission" in
  ∃ raw', raw' ∈ [raw]
    ∧ id r = id_astype_str (raw_id raw')
    ∧ price_astype_float (raw_price raw') = Ok (price r)
    ∧ ((raw_host_is_superhost raw' = Some "t" ∧ host_is_superhost r = Some "Yes")
       ∨ (raw_host_is_superhost raw' = Some "f" ∧ host_is_superhost r = Some "No"))
    ∧ room_type r = raw_room_type raw'
    ∧ host_neighbourhood r = raw_host_neighbourhood raw'
    ∧ neighbourhood_cleansed r = raw_neighbourhood_cleansed raw'
    ∧ review_scores_rating r = raw_review_scores_rating raw'
    ∧ review_scores_accuracy r = raw_review_scores_accuracy raw'
    ∧ review_scores_cleanliness r = raw_review_scores_cleanliness raw'
    ∧ review_scores_checkin r = raw_review_scores_checkin raw'
    ∧ review_scores_communication r = raw_review_scores_communication raw'
    ∧ review_scores_location r = raw_review_scores_location raw'
    ∧ picture_url r = raw_picture_url raw'
    ∧ host_url r = raw_host_url raw'
    ∧ host_response_rate r = raw_host_response_rate raw'
    ∧ others r = raw_others raw'.
Proof.
  intros raw r. apply (df_row_from_file [raw] [r] r).
  - vm_compute. reflexivity.
  - apply list_elem_of_here.
Defined.

Lemma mapM_Ok_fmap {A B C} (f : A → result B) (g : B → C) (h : A → C)
    (l : list A) (ys : list B) :
  (∀ x y, f x = Ok y → g y = h x) → mapM f l = Ok ys → g <$> ys = h <$> l.
Proof.
  intros Hgh. rewrite mapM_Ok.
  induction 1 as [|x y l ys Hxy _ IH]; [done|].
  by rewrite !fmap_cons, (Hgh x y Hxy), IH.
Qed.

(** X3. Cleaning and the two filters only take rows away: the ids of
    [filtered_df] are the ids of some rows of the file, in the file's
    order. *)
Theorem pipeline_keeps_file_order (listings_csv : list raw_listing)
    (frame : list listing) (selected_price : Z * Z) (sel : string)
    (room nb : cell string) :
  df listings_csv = Ok frame →
  id <$> filtered_df (base_df frame selected_price sel) room nb
  `sublist_of` (λ raw, id_astype_str (raw_id raw)) <$> listings_csv.
Proof.
  intros (rows & Hrows & ->)%df_Ok.
  rewrite <- (mapM_Ok_fmap assign_columns id _ _ _
               (λ raw r H, proj1 (assign_columns_Ok raw r H)) Hrows).
  apply fmap_sublist.
  unfold filtered_df, base_df, dropna.
  repeat (etrans; [apply sublist_filter|]). done.
Qed.

Lemma pipeline_keeps_file_order_witness :
  id <$> filtered_df
           (base_df [ex_listing "1" 50 "Yes" "Mission"; ex_listing "3" 80 "Yes" "Mission"]
                    (0, 100)%Z "Yes")
           (Some "Entire home/apt") (Some "Mission")
  `sublist_of`
  (λ raw, id_astype_str (raw_id raw)) <$>
    [ex_raw 1 (Some "$50.00") (Some "t") (Some "Mission") (Some "Mission") ∅;
     ex_raw 2 (Some "$60.00") (Some "t") None (Some "Mission") ∅;
     ex_raw 3 (Some "$80.00") (Some "t") (Some "Mission") (Some "Mission") ∅].
Proof.
  apply (pipeline_keeps_file_order
    [ex_raw 1 (Some "$50.00") (Some "t") (Some "Mission") (Some "Mission") ∅;
     ex_raw 2 (Some "$60.00") (Some "t") None (Some "Mission") ∅;
     ex_raw 3 (Some "$80.00") (Some "t") (Some "Mission") (Some "Mission") ∅]
    [ex_listing "1" 50 "Yes" "Mission"; ex_listing "3" 80 "Yes" "Mission"]).
  vm_compute. reflexivity.
Defined.

(** ** The price slider (lines 33 to 36) *)

(** X5. When cleaning leaves no row, the least price is NaN and line 33
    raises [ValueError]: the script shows no page for a file whose rows
    are all incomplete. *)
Theorem app_no_rows `{SortValues} (listings_csv : list raw_listing) (s : session) :
  df listings_csv = Ok [] → app listings_csv s = Raise ValueError.
Proof. intros Hdf. unfold app. by rewrite Hdf. Qed.

Lemma app_no_rows_witness :
  @app merge_kind [ex_raw 6 (Some "$70.00") (Some "t") None (Some "Mission") ∅] ex_session
  = Raise ValueError.
Proof.
  apply (@app_no_rows merge_kind). vm_compute. reflexivity.
Defined.

Lemma col_min_is_Some (col : list (cell float)) (x : float) :
  Some x ∈ col → is_Some (col_min col).
Proof.
  intros Hx%elem_of_dropna_cells. unfold col_min.
  destruct (dropna_cells col); [by inversion Hx | eauto].
Qed.

Lemma col_max_is_Some (col : list (cell float)) (x : float) :
  Some x ∈ col → is_Some (col_max col).
Proof.
  intros Hx%elem_of_dropna_cells. unfold col_max.
  destruct (dropna_cells col); [by inversion Hx | eauto].
Qed.

(** X6. When a cleaned row has an infinite price, line 33 raises
    [OverflowError]. *)
Theorem app_infinite_price `{SortValues} (listings_csv : list raw_listing)
    (frame : list listing) (s : session) (r : listing) (negative : bool) :
  df listings_csv = Ok frame → r ∈ frame → price r = Some (Inf negative) →
  app listings_csv s = Raise OverflowError.
Proof.
  intros Hdf Hr Hprice. unfold app. rewrite Hdf. simpl.
  assert (Some (Inf negative) ∈ price <$> frame) as Hin
    by (rewrite <- Hprice; by apply list_elem_of_fmap_2).
  unfold price_min, price_max.
  destruct (col_min_is_Some _ _ Hin) as [m Hm].
  destruct (col_max_is_Some _ _ Hin) as [M HM].
  rewrite Hm, HM.
  apply col_min_spec in Hm as [_ Hm]. apply col_max_spec in HM as [_ HM].
  specialize (Hm _ Hin). specialize (HM _ Hin).
  destruct m as [qm|bm]; [|done]. simpl.
  destruct M as [qM|bM]; [|done].
  destruct negative; simpl in *; done.
Qed.

Definition ex_infinite_listing : listing :=
  {| id := "2"; price := Some (Inf false); host_is_superhost := Some "Yes";
     room_type := Some "Entire home/apt"; host_neighbourhood := Some "Mission";
     neighbourhood_cleansed := Some "Mission";
     review_scores_rating := Some (Finite 4); review_scores_accuracy := Some (Finite 5);
     review_scores_cleanliness := Some (Finite 3); review_scores_checkin := Some (Finite 5);
     review_scores_communication := Some (Finite 4);
     review_scores_location := Some (Finite 5);
     avg_review_score := Some (Finite (13 # 3));
     picture_url := Some "https://a0.muscache.com/pictures/1.jpg";
     host_url := Some "https://www.airbnb.com/users/show/1";
     host_response_rate := Some "90%"; others := ∅ |}.

Lemma app_infinite_price_witness :
  @app merge_kind
    [ex_raw 1 (Some "$50.00") (Some "t") (Some "Mission") (Some "Mission") ∅;
     ex_raw 2 (Some "inf") (Some "t") (Some "Mission") (Some "Mission") ∅]
    ex_session
  = Raise OverflowError.
Proof.
  apply (@app_infinite_price merge_kind _
    [ex_listing "1" 50 "Yes" "Mission"; ex_infinite_listing]
    ex_session ex_infinite_listing false).
  - vm_compute. reflexivity.
  - apply list_elem_of_further, list_elem_of_here.
  - reflexivity.
Defined.

Lemma div_le_cross (n1 d1 n2 d2 : Z) :
  (0 < d1 → 0 < d2 → n1 * d2 ≤ n2 * d1 → n1 / d1 ≤ n2 / d2)%Z.
Proof.
  intros Hd1 Hd2 Hle.
  rewrite <- (Z.div_mul_cancel_r n1 d1 d2), <- (Z.div_mul_cancel_r n2 d2 d1) by lia.
  rewrite (Z.mul_comm d2 d1). apply Z.div_le_mono; lia.
Qed.

(** Cutting a rational to an integer, as [int] does, keeps the order. *)
Lemma quot_le (a b : Q) :
  (a <= b)%Q →
  (Z.quot (Qnum a) (Z.pos (Qden a)) ≤ Z.quot (Qnum b) (Z.pos (Qden b)))%Z.
Proof.
  destruct a as [n1 d1], b as [n2 d2]. unfold Qle. simpl. intros Hle.
  destruct (Z.le_gt_cases 0 n1) as [Hn1|Hn1], (Z.le_gt_cases 0 n2) as [Hn2|Hn2].
  - rewrite !Z.quot_div_nonneg by lia. apply div_le_cross; lia.
  - nia.
  - pose proof (Z.quot_pos n2 (Z.pos d2) Hn2 ltac:(lia)).
    assert (∃ m1, n1 = - m1 ∧ 0 < m1)%Z as (m1 & -> & Hm1) by (exists (- n1)%Z; lia).
    rewrite Z.quot_opp_l by lia.
    pose proof (Z.quot_pos m1 (Z.pos d1) ltac:(lia) ltac:(lia)). lia.
  - assert (∃ m1, n1 = - m1 ∧ 0 < m1)%Z as (m1 & -> & Hm1) by (exists (- n1)%Z; lia).
    assert (∃ m2, n2 = - m2 ∧ 0 < m2)%Z as (m2 & -> & Hm2) by (exists (- n2)%Z; lia).
    rewrite !Z.quot_opp_l by lia. rewrite !Z.quot_div_nonneg by lia.
    apply -> Z.opp_le_mono. apply div_le_cross; lia.
Qed.

(** Below a price that is not negative lies its integer part. *)
Lemma quot_below (q : Q) :
  (0 <= q)%Q → (inject_Z (Z.quot (Qnum q) (Z.pos (Qden q))) <= q)%Q.
Proof.
  destruct q as [n d]. unfold Qle. simpl. intros Hn.
  rewrite Z.quot_div_nonneg by lia.
  pose proof (Z.mul_div_le n (Z.pos d) ltac:(lia)). lia.
Qed.

(** X7. The two ends handed to the slider are in order: whenever line 33
    yields them, [price_min] is at most [price_max]. *)
Theorem price_min_le_price_max (frame : list listing) (lo hi : Z) :
  price_min frame = Ok lo → price_max frame = Ok hi → (lo ≤ hi)%Z.
Proof.
  unfold price_min, price_max.
  destruct (col_min (price <$> frame)) as [[qm|]|] eqn:Hmin; simpl; [|done..].
  destruct (col_max (price <$> frame)) as [[qM|]|] eqn:Hmax; simpl; [|done..].
  intros [= <-] [= <-].
  apply col_min_spec in Hmin as [Hin _]. apply col_max_spec in Hmax as [_ Hle].
  specialize (Hle _ Hin). simpl in Hle.
  apply quot_le. by apply Qle_bool_iff, Is_true_true.
Qed.

Lemma price_min_le_price_max_witness : (50 ≤ 1099)%Z.
Proof.
  apply (price_min_le_price_max
    [ex_listing "1" 50 "Yes" "Mission"; ex_listing "2" (2199 # 2) "Yes" "Mission"]);
    reflexivity.
Defined.

(** X8. With prices that are not negative the lower end of the full
    range loses no listing: [base_df] at the slider's default holds every
    listing of the selected kind priced at most [price_max]. *)
Theorem full_range_lower_end (frame : list listing) (lo hi : Z) (sel : string) :
  price_min frame = Ok lo → price_max frame = Ok hi →
  (∀ r, r ∈ frame → ∃ q, price r = Some (Finite q) ∧ (0 <= q)%Q) →
  base_df frame (slider lo hi None) sel
  = filter (λ r, host_is_superhost r = Some sel ∧ le_int (price r) hi) frame.
Proof.
  unfold price_min. intros Hlo _ Hpos.
  destruct (col_min (price <$> frame)) as [[qm|]|] eqn:Hmin; simpl in Hlo; [|done..].
  injection Hlo as <-.
  apply col_min_spec in Hmin as [Hin Hle].
  apply list_elem_of_fmap in Hin as (rm & Hrm & Hrm_in).
  destruct (Hpos rm Hrm_in) as (q & Hq & Hq0).
  assert (q = qm) as -> by congruence.
  unfold base_df, slider. simpl. apply filter_ext_in. intros r Hr.
  destruct (Hpos r Hr) as (p & Hp & _).
  assert (ge_int (price r) (Z.quot (Qnum qm) (Z.pos (Qden qm)))) as Hge.
  { rewrite Hp. simpl. apply Is_true_true, Qle_bool_iff.
    eapply Qle_trans; [by apply quot_below|].
    assert (fle (Finite qm) (Finite p)) as Hqp
      by (apply Hle; rewrite <- Hp; by apply list_elem_of_fmap_2).
    by apply Qle_bool_iff, Is_true_true. }
  rewrite !andb_True, eq_str_spec.
  split; [intros [[_ ?] (s & -> & [= ->])]; done | intros [-> ?]; eauto].
Qed.

Lemma full_range_lower_end_witness :
  let frame := [ex_listing "1" (101 # 2) "Yes" "Mission";
                ex_listing "2" (2199 # 2) "Yes" "Mission"] in
  base_df frame (slider 50 1099 None) "Yes"
  = filter (λ r, host_is_superhost r = Some "Yes" ∧ le_int (price r) 1099) frame.
Proof.
  intros frame. apply (full_range_lower_end frame 50 1099 "Yes").
  - reflexivity.
  - reflexivity.
  - intros r Hr. apply elem_of_cons in Hr as [->|Hr];
      [|apply list_elem_of_singleton in Hr as ->]; eexists; (split; [reflexivity|done]).
Defined.

(** X9. When every price is a whole number, the slider's full range
    loses nothing: [base_df] at the default holds every listing of the
    selected kind. *)
Theorem full_range_whole_prices (frame : list listing) (lo hi : Z) (sel : string) :
  price_min frame = Ok lo → price_max frame = Ok hi →
  (∀ r, r ∈ frame → ∃ n : Z, price r = Some (Finite (inject_Z n))) →
  base_df frame (slider lo hi None) sel
  = filter (λ r, host_is_superhost r = Some sel) frame.
Proof. apply full_range_keeps_whole_prices. Qed.

Lemma full_range_whole_prices_witness :
  let frame := [ex_listing "1" 50 "Yes" "Mission"; ex_listing "2" 1100 "No" "Castro"] in
  base_df frame (slider 50 1100 None) "No"
  = filter (λ r, host_is_superhost r = Some "No") frame.
Proof.
  intros frame. apply (full_range_whole_prices frame 50 1100 "No").
  - reflexivity.
  - reflexivity.
  - intros r Hr. apply elem_of_cons in Hr as [->|Hr];
      [exists 50%Z|apply list_elem_of_singleton in Hr as ->; exists 1100%Z]; reflexivity.
Defined.

(** ** Step 1 (lines 40 to 44) *)

(** X10. A range whose upper end lies below its lower end selects
    nothing: [base_df] is empty, and nothing is raised. *)
Theorem base_df_inverted_range (frame : list listing) (lo hi : Z) (sel : string) :
  (hi < lo)%Z → base_df frame (lo, hi) sel = [].
Proof.
  intros Hlt. unfold base_df. simpl.
  destruct (filter _ frame) as [|r rest] eqn:Hf; [done|].
  assert (r ∈ filter (λ r, ge_int (price r) lo && le_int (price r) hi
                           && eq_str (host_is_superhost r) (Some sel)) frame) as Hr
    by (rewrite Hf; apply list_elem_of_here).
  apply list_elem_of_filter in Hr as [Htest _].
  apply step1_test in Htest as [(p & _ & Hlo & Hhi) _].
  pose proof (Qle_trans _ _ _ Hlo Hhi) as Hle. rewrite <- Zle_Qle in Hle. lia.
Qed.

Lemma base_df_inverted_range_witness :
  base_df [ex_listing "1" 50 "Yes" "Mission"; ex_listing "2" 80 "Yes" "Mission"]
          (90, 40)%Z "Yes" = [].
Proof. apply base_df_inverted_range. lia. Defined.

(** X11. Widening the price range never loses a listing: the narrower
    [base_df] is picked out of the wider one, in the same order. *)
Theorem base_df_widen (frame : list listing) (lo hi lo' hi' : Z) (sel : string) :
  (lo' ≤ lo)%Z → (hi ≤ hi')%Z →
  base_df frame (lo, hi) sel `sublist_of` base_df frame (lo', hi') sel.
Proof.
  intros Hlo Hhi. unfold base_df. simpl.
  rewrite <- (list_filter_filter_l
                (λ r, ge_int (price r) lo && le_int (price r) hi
                      && eq_str (host_is_superhost r) (Some sel))
                (λ r, ge_int (price r) lo' && le_int (price r) hi'
                      && eq_str (host_is_superhost r) (Some sel))).
  - apply sublist_filter.
  - intros r. rewrite !step1_test. intros [(p & Hp & Hl & Hh) Hsel].
    split; [|done]. exists p. split; [done|]. split.
    + eapply Qle_trans; [|exact Hl]. by rewrite <- Zle_Qle.
    + eapply Qle_trans; [exact Hh|]. by rewrite <- Zle_Qle.
Qed.

Lemma base_df_widen_witness :
  let frame := [ex_listing "1" 50 "Yes" "Mission"; ex_listing "2" 80 "Yes" "Mission"] in
  base_df frame (60, 90)%Z "Yes" `sublist_of` base_df frame (40, 100)%Z "Yes".
Proof. intros frame. apply base_df_widen; lia. Defined.

Lemma base_df_by_flag (frame : list listing) (selected_price : Z * Z) (sel : string) :
  base_df frame selected_price sel
  = filter (λ r, host_is_superhost r = Some sel)
      (filter (λ r, ge_int (price r) selected_price.1
                    && le_int (price r) selected_price.2) frame).
Proof.
  unfold base_df. rewrite list_filter_filter. apply list_filter_iff.
  intros r. rewrite !andb_True, eq_str_spec. naive_solver.
Qed.

(** X12. Over a cleaned frame the two superhost selections split the
    listings of a price range between them: every listing in the range
    is in [base_df] under exactly one of Yes and No. *)
Theorem base_df_yes_no_split (listings_csv : list raw_listing)
    (frame : list listing) (selected_price : Z * Z) :
  df listings_csv = Ok frame →
  base_df frame selected_price "Yes" ++ base_df frame selected_price "No"
  ≡ₚ filter (λ r, ge_int (price r) selected_price.1
                  && le_int (price r) selected_price.2) frame.
Proof.
  intros Hdf. rewrite !base_df_by_flag.
  set (in_range := filter _ frame).
  rewrite (filter_ext_in (λ r, host_is_superhost r = Some "No")
             (λ r, ¬ host_is_superhost r = Some "Yes") in_range).
  - apply filter_app_complement.
  - intros r Hr. apply list_elem_of_filter in Hr as [_ Hr].
    destruct (df_enforced _ _ _ Hdf Hr) as (_ & _ & _ & [Hflag|Hflag] & _);
      rewrite Hflag; naive_solver.
Qed.

Lemma base_df_yes_no_split_witness :
  let frame := [ex_listing "12345" 1250 "Yes" "Mission"] in
  base_df frame (1000, 1500)%Z "Yes" ++ base_df frame (1000, 1500)%Z "No"
  ≡ₚ filter (λ r, ge_int (price r) 1000 && le_int (price r) 1500) frame.
Proof.
  intros frame.
  apply (base_df_yes_no_split
    [ex_raw 12345 (Some "$1,250.00") (Some "t") (Some "Mission") (Some "Mission") ∅]
    frame (1000, 1500)%Z).
  vm_compute. reflexivity.
Defined.

(** ** The Step 2 options (lines 95 to 99) *)

Lemma length_dropna_cells {A} (col : list (cell A)) :
  (length (dropna_cells col) ≤ length col)%nat
  ∧ (length (dropna_cells col) = length col ↔ None ∉ col).
Proof.
  induction col as [|[x|] col [IHle IHeq]]; simpl.
  - split; [lia|]. split; [by inversion 2|done].
  - split; [lia|]. rewrite not_elem_of_cons. naive_solver lia.
  - split; [lia|]. rewrite not_elem_of_cons. naive_solver lia.
Qed.

Lemma dropna_cells_all_Some {A} (col : list (cell A)) :
  None ∉ col → col = Some <$> dropna_cells col.
Proof.
  induction col as [|[x|] col IH]; [done|..].
  - rewrite not_elem_of_cons. intros [_ Hcol].
    change (dropna_cells (Some x :: col)) with (x :: dropna_cells col).
    rewrite fmap_cons. f_equal. by apply IH.
  - rewrite not_elem_of_cons. naive_solver.
Qed.

(** What [sorted] does with the cells of a text column. *)
Lemma sorted_Ok_text (col : list (cell string)) :
  None ∉ col → sorted col = Ok (Some <$> merge_sort str_le (dropna_cells col)).
Proof.
  intros Hcol. unfold sorted.
  destruct (dropna_cells col) as [|s strs] eqn:Hstrs.
  - rewrite (dropna_cells_all_Some col Hcol), Hstrs. done.
  - rewrite <- Hstrs. rewrite bool_decide_true; [done|].
    by apply length_dropna_cells.
Qed.

Lemma sorted_Raise (col : list (cell string)) (e : exn) :
  sorted col = Raise e ↔ e = TypeError ∧ None ∈ col ∧ ∃ s, Some s ∈ col.
Proof.
  unfold sorted. destruct (dropna_cells col) as [|s strs] eqn:Hstrs.
  - split; [done|]. intros (_ & _ & s & Hs%elem_of_dropna_cells).
    rewrite Hstrs in Hs. by inversion Hs.
  - rewrite <- Hstrs. case_bool_decide as Hlen.
    + split; [done|]. intros (_ & Hnone & _).
      by apply length_dropna_cells in Hlen.
    + split; [|by intros [-> _]]. intros [= <-]. split; [done|]. split.
      * destruct (decide (None ∈ col)) as [|Hnone]; [done|].
        by apply length_dropna_cells in Hnone.
      * exists s. apply elem_of_dropna_cells. rewrite Hstrs. apply list_elem_of_here.
Qed.

(** X13. Over a cleaned frame the room options never fail: they are the
    distinct room types of [base_df], each once, in ascending order. *)
Theorem available_rooms_of_cleaned (listings_csv : list raw_listing)
    (frame : list listing) (selected_price : Z * Z) (sel : string) :
  df listings_csv = Ok frame →
  ∃ rooms : list string,
    available_rooms (base_df frame selected_price sel) = Ok (Some <$> rooms)
    ∧ NoDup rooms ∧ Sorted str_le rooms
    ∧ ∀ rt, rt ∈ rooms ↔ ∃ r, r ∈ base_df frame selected_price sel ∧ room_type r = Some rt.
Proof.
  intros Hdf. set (base := base_df frame selected_price sel).
  set (col := unique (room_type <$> base)).
  assert (None ∉ col) as Hcol.
  { unfold col. rewrite elem_of_unique, list_elem_of_fmap. intros (r & Hnone & Hr).
    apply list_elem_of_filter in Hr as [_ Hr].
    destruct (df_enforced _ _ _ Hdf Hr) as (_ & [rt Hrt] & _). congruence. }
  exists (merge_sort str_le (dropna_cells col)).
  split; [by apply sorted_Ok_text|]. split; [|split].
  - rewrite merge_sort_Permutation.
    apply (NoDup_fmap_1 Some). rewrite <- dropna_cells_all_Some by done.
    apply NoDup_unique.
  - apply (Sorted_merge_sort str_le).
  - intros rt. rewrite merge_sort_Permutation, elem_of_dropna_cells.
    unfold col. rewrite elem_of_unique, list_elem_of_fmap. naive_solver.
Qed.

Lemma available_rooms_of_cleaned_witness :
  ∃ rooms : list string,
    available_rooms (base_df [ex_listing "12345" 1250 "Yes" "Mission"] (1000, 1500)%Z "Yes")
    = Ok (Some <$> rooms)
    ∧ NoDup rooms ∧ Sorted str_le rooms
    ∧ ∀ rt, rt ∈ rooms ↔
        ∃ r, r ∈ base_df [ex_listing "12345" 1250 "Yes" "Mission"] (1000, 1500)%Z "Yes"
             ∧ room_type r = Some rt.
Proof.
  apply (available_rooms_of_cleaned
    [ex_raw 12345 (Some "$1,250.00") (Some "t") (Some "Mission") (Some "Mission") ∅]).
  vm_compute. reflexivity.
Defined.

Lemma available_neighborhoods_Raise_cause (base : list listing) (e : exn) :
  available_neighborhoods base = Raise e ↔
  e = TypeError
  ∧ (∃ r, r ∈ base ∧ neighbourhood_cleansed r = None)
  ∧ (∃ r, r ∈ base ∧ is_Some (neighbourhood_cleansed r)).
Proof.
  unfold available_neighborhoods. rewrite sorted_Raise, elem_of_unique, list_elem_of_fmap.
  split.
  - intros (-> & (r & Hnone & Hr) & s & Hs).
    apply elem_of_unique, list_elem_of_fmap in Hs as (r' & Hs & Hr'). eauto 10.
  - intros (-> & (r & Hr & Hnone) & r' & Hr' & s & Hs).
    split; [done|]. split; [eauto|].
    exists s. rewrite elem_of_unique, list_elem_of_fmap. eauto.
Qed.

(** X14. The neighbourhood options fail in one case only: line 98 raises
    [TypeError] exactly when [base_df] holds both a listing without a
    [neighbourhood_cleansed] and a listing with one. *)
Theorem available_neighborhoods_Raise (base : list listing) (e : exn) :
  available_neighborhoods base = Raise e ↔
  e = TypeError
  ∧ (∃ r, r ∈ base ∧ neighbourhood_cleansed r = None)
  ∧ (∃ r, r ∈ base ∧ is_Some (neighbourhood_cleansed r)).
Proof. apply available_neighborhoods_Raise_cause. Qed.

Lemma available_neighborhoods_Raise_witness :
  available_neighborhoods
    [ex_listing "1" 50 "Yes" "Mission";
     {| id := "5"; price := Some (Finite 70); host_is_superhost := Some "Yes";
        room_type := Some "Entire home/apt"; host_neighbourhood := Some "Mission";
        neighbourhood_cleansed := None;
        review_scores_rating := Some (Finite 4); review_scores_accuracy := Some (Finite 5);
        review_scores_cleanliness := Some (Finite 3); review_scores_checkin := Some (Finite 5);
        review_scores_communication := Some (Finite 4);
        review_scores_location := Some (Finite 5);
        avg_review_score := Some (Finite (13 # 3));
        picture_url := None; host_url := None; host_response_rate := None;
        others := ∅ |}]
  = Raise TypeError.
Proof.
  apply available_neighborhoods_Raise. split; [done|]. split.
  - eexists. split; [apply list_elem_of_further, list_elem_of_here|reflexivity].
  - eexists. split; [apply list_elem_of_here|]. by eexists.
Defined.

(** ** Step 3 (lines 134 to 168) *)

Lemma unique_sublist `{EqDecision A} (l : list A) : unique l `sublist_of` l.
Proof.
  induction l as [|x l IH]; simpl; [done|].
  apply sublist_skip. etrans; [apply sublist_filter|done].
Qed.

(** X15. The ids on offer in Step 3 are the ids of [filtered_df], each
    once, in the order in which they first appear: a row added at the
    end of the frame adds its id at the end of the ids when no earlier
    row bears it, and changes nothing when one does. *)
Theorem available_ids_distinct (filtered : list listing) :
  NoDup (available_ids filtered)
  ∧ available_ids filtered `sublist_of` id <$> filtered
  ∧ (∀ i, i ∈ available_ids filtered ↔ ∃ r, r ∈ filtered ∧ id r = i)
  ∧ ∀ r, available_ids (filtered ++ [r])
         = (available_ids filtered
            ++ if decide (id r ∈ id <$> filtered) then [] else [id r])%list.
Proof.
  split; [apply NoDup_unique|]. split; [apply unique_sublist|].
  split; [intros i; rewrite elem_of_available_ids; naive_solver|].
  intros r. unfold available_ids. rewrite fmap_app.
  apply (unique_snoc (id <$> filtered) (id r)).
Qed.

Example available_ids_first_appearance :
  available_ids [ex_listing "7" 50 "Yes" "Mission"; ex_listing "9" 60 "Yes" "Mission";
                 ex_listing "7" 70 "Yes" "Castro"]
  = ["7"; "9"].
Proof. reflexivity. Qed.

(** X16. When several rows of [filtered_df] bear the selected id, line
    137 returns the first of them. *)
Theorem selected_row_first (filtered : list listing) (i : string) (r : listing) :
  selected_row filtered i = Ok r →
  ∃ before after,
    filtered = (before ++ r :: after)%list ∧ id r = i ∧ Forall (λ x, id x ≠ i) before.
Proof.
  unfold selected_row. induction filtered as [|x l IH]; [done|].
  rewrite filter_cons. destruct (decide (id x = i)) as [Hx|Hx].
  - intros [= <-]. exists [], l. split; [done|]. split; [done|constructor].
  - intros Hsel. destruct (IH Hsel) as (before & after & -> & Hid & Hbefore).
    exists (x :: before), after. split; [done|]. split; [done|]. by constructor.
Qed.

Lemma selected_row_first_witness :
  let a := ex_listing "7" 80 "Yes" "Mission" in
  let b := ex_listing "9" 90 "Yes" "Mission" in
  let c := ex_listing "9" 95 "Yes" "Mission" in
  ∃ before after,
    [a; b; c] = (before ++ b :: after)%list ∧ id b = "9"
    ∧ Forall (λ x, id x ≠ "9") before.
Proof.
  intros a b c. apply (selected_row_first [a; b; c] "9" b). reflexivity.
Defined.

(** X17. The first id on offer selects the first row of [filtered_df]. *)
Theorem first_id_selects_first_row (filtered : list listing) (i : string) :
  head (available_ids filtered) = Some i →
  ∃ r, head filtered = Some r ∧ id r = i ∧ selected_row filtered i = Ok r.
Proof.
  destruct filtered as [|r rest]; [done|]. simpl. intros [= <-].
  exists r. split; [done|]. split; [done|].
  unfold selected_row. by rewrite filter_cons_True.
Qed.

Lemma first_id_selects_first_row_witness :
  let a := ex_listing "7" 80 "Yes" "Mission" in
  let b := ex_listing "9" 90 "Yes" "Mission" in
  ∃ r, head [a; b] = Some r ∧ id r = "7" ∧ selected_row [a; b] "7" = Ok r.
Proof.
  intros a b. apply (first_id_selects_first_row [a; b] "7"). reflexivity.
Defined.

(** X18. The review chart of a cleaned listing has no missing bar: each
    of its six rows carries a score. *)
Theorem review_scores_all_present (listings_csv : list raw_listing)
    (frame : list listing) (r : listing) :
  df listings_csv = Ok frame → r ∈ frame →
  Forall (λ bar, is_Some bar.2) (review_scores r).
Proof.
  intros Hdf Hr.
  destruct (df_enforced _ _ _ Hdf Hr) as (_ & _ & _ & _ & Hrev & _).
  repeat (apply Forall_cons in Hrev as [? Hrev]).
  unfold review_scores. simpl. repeat constructor; done.
Qed.

Lemma review_scores_all_present_witness :
  Forall (λ bar, is_Some bar.2) (review_scores (ex_listing "12345" 1250 "Yes" "Mission")).
Proof.
  apply (review_scores_all_present
    [ex_raw 12345 (Some "$1,250.00") (Some "t") (Some "Mission") (Some "Mission") ∅]
    [ex_listing "12345" 1250 "Yes" "Mission"]).
  - vm_compute. reflexivity.
  - apply list_elem_of_here.
Defined.

Lemma get_host_response_rate (row : listing) (default : string) :
  get row "host_response_rate" default = host_response_rate row.
Proof.
  unfold get, text_columns. rewrite !lookup_insert_ne by done.
  by rewrite lookup_insert_eq.
Qed.

(** X19. For a cleaned listing the response-rate line always shows the
    rate itself, never [nan] and never the marker. *)
Theorem host_response_rate_line (listings_csv : list raw_listing)
    (frame : list listing) (r : listing) :
  df listings_csv = Ok frame → r ∈ frame →
  ∃ rate, host_response_rate r = Some rate
    ∧ host_line r "host_response_rate" = "**Host Response Rate:** " +:+ rate.
Proof.
  intros Hdf Hr.
  destruct (df_enforced _ _ _ Hdf Hr) as (_ & _ & _ & _ & _ & _ & _ & [rate Hrate] & _).
  exists rate. split; [done|].
  unfold host_line. by rewrite get_host_response_rate, Hrate.
Qed.

Lemma host_response_rate_line_witness :
  ∃ rate, host_response_rate (ex_listing "12345" 1250 "Yes" "Mission") = Some rate
    ∧ host_line (ex_listing "12345" 1250 "Yes" "Mission") "host_response_rate"
      = "**Host Response Rate:** " +:+ rate.
Proof.
  apply (host_response_rate_line
    [ex_raw 12345 (Some "$1,250.00") (Some "t") (Some "Mission") (Some "Mission") ∅]
    [ex_listing "12345" 1250 "Yes" "Mission"]).
  - vm_compute. reflexivity.
  - apply list_elem_of_here.
Defined.

(** X20. The lines for [host_name] and [host_acceptance_rate] show the
    cell's text, [nan] for an empty cell, and the marker only when the
    file has no such column. *)
Theorem host_line_optional (row : listing) :
  host_line row "host_name"
  = "**Host Name:** " +:+
    match others row !! "host_name" with
    | Some (Some name) => name
    | Some None => "nan"
    | None => "Not Available"
    end
  ∧ host_line row "host_acceptance_rate"
    = "**Host Acceptance Rate:** " +:+
      match others row !! "host_acceptance_rate" with
      | Some (Some rate) => rate
      | Some None => "nan"
      | None => "Not Available"
      end.
Proof.
  split; [apply host_line_host_name|].
  unfold host_line, get, text_columns. rewrite !lookup_insert_ne by done.
  by destruct (others row !! "host_acceptance_rate") as [[rate|]|].
Qed.

(** ** The average-price chart (lines 74 to 78) *)

Lemma inject_Z_succ (n : nat) :
  (inject_Z (Z.of_nat (S n)) == inject_Z (Z.of_nat n) + 1)%Q.
Proof. by rewrite Nat2Z.inj_succ, <- Z.add_1_r, inject_Z_plus. Qed.

Lemma fsum_bounds (a b : Q) (xs : list float) (acc : Q) :
  Forall (λ x, ∃ p, x = Finite p ∧ (a <= p)%Q ∧ (p <= b)%Q) xs →
  ∃ s, fsum (Some (Finite acc)) xs = Some (Finite s)
    ∧ (acc + inject_Z (Z.of_nat (length xs)) * a <= s)%Q
    ∧ (s <= acc + inject_Z (Z.of_nat (length xs)) * b)%Q.
Proof.
  intros Hxs. revert acc. induction Hxs as [|x xs (p & -> & Hap & Hpb) _ IH]; intros acc.
  - exists acc. simpl. split; [done|].
    change (inject_Z 0) with 0%Q. rewrite !Qmult_0_l, Qplus_0_r.
    split; apply Qle_refl.
  - destruct (IH (Qred (acc + p))) as (s & Hs & Hlo & Hhi).
    exists s. split; [exact Hs|].
    rewrite Qred_correct in Hlo, Hhi.
    change (length (Finite p :: xs)) with (S (length xs)).
    rewrite inject_Z_succ, !Qmult_plus_distr_l, !Qmult_1_l.
    split.
    + eapply Qle_trans; [|exact Hlo].
      rewrite <- !Qplus_assoc. apply Qplus_le_compat; [apply Qle_refl|].
      rewrite (Qplus_comm p). apply Qplus_le_compat; [apply Qle_refl|done].
    + eapply Qle_trans; [exact Hhi|].
      rewrite <- !Qplus_assoc. apply Qplus_le_compat; [apply Qle_refl|].
      rewrite (Qplus_comm p). apply Qplus_le_compat; [apply Qle_refl|done].
Qed.

(** The mean of prices that all lie in a range lies in the range. *)
Lemma mean_bounds (a b : Q) (col : list (cell float)) :
  col ≠ [] →
  Forall (λ c, ∃ p, c = Some (Finite p) ∧ (a <= p)%Q ∧ (p <= b)%Q) col →
  ∃ q, mean col = Some (Finite q) ∧ (a <= q)%Q ∧ (q <= b)%Q.
Proof.
  intros Hne Hcol.
  assert (None ∉ col) as Hnone.
  { intros Hin. rewrite Forall_forall in Hcol.
    by destruct (Hcol _ Hin) as (? & ? & _). }
  assert (Forall (λ x, ∃ p, x = Finite p ∧ (a <= p)%Q ∧ (p <= b)%Q) (dropna_cells col))
    as Hxs.
  { rewrite Forall_forall in Hcol. apply Forall_forall.
    intros x Hx%elem_of_dropna_cells.
    destruct (Hcol _ Hx) as (p & [= ->] & ?). eauto. }
  unfold mean. destruct (dropna_cells col) as [|x xs] eqn:Hdrop.
  { apply dropna_cells_all_Some in Hnone. rewrite Hdrop in Hnone. done. }
  destruct (fsum_bounds a b (x :: xs) 0 Hxs) as (s & -> & Hlo & Hhi).
  simpl fmap. eexists. split; [reflexivity|].
  rewrite Qred_correct. rewrite Qplus_0_l in Hlo, Hhi.
  assert (0 < inject_Z (Z.of_nat (length (x :: xs))))%Q as Hpos.
  { rewrite <- (Zlt_Qlt 0). simpl. lia. }
  split.
  - apply Qle_shift_div_l; [done|]. by rewrite Qmult_comm.
  - apply Qle_shift_div_r; [done|]. by rewrite Qmult_comm.
Qed.

(** X21. Every bar of the average-price chart lies in the selected price
    range: each row of the summary of [base_df] has a mean price, and it
    is between the two ends of the range. *)
Theorem neighborhood_avg_within_range `{SortValues} (frame : list listing)
    (lo hi : Z) (sel : string) (row : summary) :
  row ∈ neighborhood_avg (base_df frame (lo, hi) sel) →
  ∃ q, mean_price row = Some (Finite q)
       ∧ (inject_Z lo <= q)%Q ∧ (q <= inject_Z hi)%Q.
Proof.
  set (base := base_df frame (lo, hi) sel).
  unfold neighborhood_avg. rewrite sort_values_perm. unfold groupby_mean.
  rewrite list_elem_of_fmap. intros (k & -> & Hk). simpl.
  rewrite merge_sort_Permutation, elem_of_unique, elem_of_dropna_cells,
    list_elem_of_fmap in Hk.
  destruct Hk as (r0 & Hk & Hr0).
  apply mean_bounds.
  - intros Hnil. apply fmap_nil_inv in Hnil.
    by eapply (filter_nil_not_elem_of _ _ r0 Hnil).
  - rewrite Forall_fmap, Forall_forall. intros r [_ Hr]%list_elem_of_filter.
    apply list_elem_of_filter in Hr as [Htest _].
    apply step1_test in Htest as [(p & Hp & Hl & Hh) _]. simpl. eauto.
Qed.

Lemma neighborhood_avg_within_range_witness :
  let row := {| neighbourhood := "Mission"; mean_price := Some (Finite 175) |} in
  ∃ q, mean_price row = Some (Finite q)
       ∧ (inject_Z 50 <= q)%Q ∧ (q <= inject_Z 300)%Q.
Proof.
  intros row.
  apply (@neighborhood_avg_within_range merge_kind
    [ex_listing "1" 100 "Yes" "Castro"; ex_listing "2" 100 "Yes" "Mission";
     ex_listing "3" 250 "Yes" "Mission"; ex_listing "4" 900 "Yes" "Mission"]
    50 300 "Yes" row).
  vm_compute. apply list_elem_of_here.
Defined.

(** ** The script as a whole *)













(** X24. Step 3 shows a listing of [filtered_df]: whenever the frame has
    rows, the page carries the review chart and the three host lines of
    one of its rows, under that row's id. *)
Theorem step3_shows_member (filtered : list listing) (s : session) :
  filtered ≠ [] →
  ∃ r, r ∈ filtered
    ∧ step3 filtered s
      = Ok ([subheader ("Review Breakdown for Listing ID " +:+ id r);
             altair_chart (review_bar (review_scores r));
             subheader ("Host Information:" +:+ id r)]
            ++ (write <$> host_info r))%list.
Proof.
  intros Hne. unfold step3.
  destruct (selectbox_is_Some (available_ids filtered) (pick_id s)) as [j Hj].
  { destruct filtered; [done|]. discriminate. }
  rewrite Hj.
  apply selectbox_elem_of, elem_of_available_ids in Hj as (r0 & -> & Hr0).
  destruct (selected_row_of_member filtered r0 Hr0) as [r Hsel].
  rewrite Hsel. apply selected_row_Ok in Hsel as [<- Hr].
  exists r. split; done.
Qed.

Lemma step3_shows_member_witness :
  let view := [ex_listing "7" 80 "Yes" "Mission"; ex_listing "9" 90 "Yes" "Mission"] in
  ∃ r, r ∈ view
    ∧ step3 view ex_session
      = Ok ([subheader ("Review Breakdown for Listing ID " +:+ id r);
             altair_chart (review_bar (review_scores r));
             subheader ("Host Information:" +:+ id r)]
            ++ (write <$> host_info r))%list.
Proof. intros view. apply (step3_shows_member view ex_session). discriminate. Defined.

(** X25. When no listing of [base_df] has a [neighbourhood_cleansed],
    Step 2 does not fail: the one neighbourhood on offer is NaN, it
    equals no cell, and the page shows the no-match warning. *)
Theorem step2_without_neighbourhoods (base : list listing) (s : session) :
  (∀ r, r ∈ base → is_Some (room_type r)) →
  (∀ r, r ∈ base → neighbourhood_cleansed r = None) →
  step2 base s
  = Ok [warning "No listings match your selected room type and neighborhood."].
Proof.
  intros Hrooms Hnone. unfold step2.
  assert (None ∉ unique (room_type <$> base)) as Hcol.
  { rewrite elem_of_unique, list_elem_of_fmap. intros (r & Hr & Hin).
    destruct (Hrooms r Hin). congruence. }
  unfold available_rooms. rewrite (sorted_Ok_text _ Hcol). simpl.
  assert (∀ c, c ∈ unique (neighbourhood_cleansed <$> base) → c = None) as Hnbs.
  { intros c. rewrite elem_of_unique, list_elem_of_fmap. intros (r & -> & Hr). auto. }
  assert (dropna_cells (unique (neighbourhood_cleansed <$> base)) = []) as Hdrop.
  { destruct (dropna_cells _) as [|x xs] eqn:Hx; [done|].
    assert (x ∈ dropna_cells (unique (neighbourhood_cleansed <$> base))) as Hin
      by (rewrite Hx; apply list_elem_of_here).
    apply elem_of_dropna_cells, Hnbs in Hin. done. }
  unfold available_neighborhoods, sorted. rewrite Hdrop. simpl.
  assert (mjoin (selectbox (unique (neighbourhood_cleansed <$> base))
                           (pick_neighborhood s)) = None) as ->.
  { destruct (selectbox _ _) as [c|] eqn:Hc; [|done].
    apply selectbox_elem_of, Hnbs in Hc. by subst. }
  assert (∀ room, filtered_df base room None = []) as ->; [|done].
  intros room. unfold filtered_df.
  destruct (filter _ base) as [|r rest] eqn:Hf; [done|].
  assert (r ∈ filter (λ r, eq_str (room_type r) room
                           && eq_str (neighbourhood_cleansed r) None) base) as Hr
    by (rewrite Hf; apply list_elem_of_here).
  apply list_elem_of_filter in Hr as [Htest _].
  apply andb_True in Htest as [_ Htest]. by destruct (neighbourhood_cleansed r).
Qed.

Definition ex_no_neighbourhood_listing : listing :=
  {| id := "5"; price := Some (Finite 70); host_is_superhost := Some "Yes";
     room_type := Some "Entire home/apt"; host_neighbourhood := Some "Mission";
     neighbourhood_cleansed := None;
     review_scores_rating := Some (Finite 4); review_scores_accuracy := Some (Finite 5);
     review_scores_cleanliness := Some (Finite 3); review_scores_checkin := Some (Finite 5);
     review_scores_communication := Some (Finite 4);
     review_scores_location := Some (Finite 5);
     avg_review_score := Some (Finite (13 # 3));
     picture_url := Some "https://a0.muscache.com/pictures/1.jpg";
     host_url := Some "https://www.airbnb.com/users/show/1";
     host_response_rate := Some "90%"; others := ∅ |}.

Lemma step2_without_neighbourhoods_witness :
  step2 [ex_no_neighbourhood_listing] ex_session
  = Ok [warning "No listings match your selected room type and neighborhood."].
Proof.
  apply step2_without_neighbourhoods.
  - intros r ->%list_elem_of_singleton. by eexists.
  - intros r ->%list_elem_of_singleton. reflexivity.
Defined.



Lemma filtered_ids_sublist (listings_csv : list raw_listing) (frame : list listing)
    (selected_price : Z * Z) (sel : string) (room nb : cell string) :
  df listings_csv = Ok frame →
  id <$> filtered_df (base_df frame selected_price sel) room nb
  `sublist_of` (λ raw, id_astype_str (raw_id raw)) <$> listings_csv.
Proof.
  intros (rows & Hrows & ->)%df_Ok.
  rewrite <- (mapM_Ok_fmap assign_columns id _ _ _
               (λ raw r H, proj1 (assign_columns_Ok raw r H)) Hrows).
  apply fmap_sublist.
  unfold filtered_df, base_df, dropna.
  repeat (etrans; [apply sublist_filter|]). done.
Qed.

Lemma NoDup_fmap_eq {A B} (f : A → B) (l : list A) (x y : A) :
  NoDup (f <$> l) → x ∈ l → y ∈ l → f x = f y → x = y.
Proof.
  induction l as [|z l IH]; [by inversion 2|].
  rewrite fmap_cons, NoDup_cons, !elem_of_cons. intros [Hz Hl] [->|Hx] [->|Hy] Hxy.
  - done.
  - exfalso. apply Hz. rewrite Hxy. by apply list_elem_of_fmap_2.
  - exfalso. apply Hz. rewrite <- Hxy. by apply list_elem_of_fmap_2.
  - by apply IH.
Qed.

(** X27. When the ids of the file are distinct, every listing of
    [filtered_df] can be reached in Step 3: looking up its id returns
    that very row. *)
Theorem every_listing_selectable (listings_csv : list raw_listing)
    (frame : list listing) (selected_price : Z * Z) (sel : string)
    (room nb : cell string) (r : listing) :
  df listings_csv = Ok frame →
  NoDup ((λ raw, id_astype_str (raw_id raw)) <$> listings_csv) →
  r ∈ filtered_df (base_df frame selected_price sel) room nb →
  selected_row (filtered_df (base_df frame selected_price sel) room nb) (id r) = Ok r.
Proof.
  intros Hdf Hids Hr.
  set (filtered := filtered_df _ _ _) in *.
  assert (NoDup (id <$> filtered)) as Hnodup
    by (eapply sublist_NoDup; [exact Hids|by apply filtered_ids_sublist]).
  destruct (selected_row_of_member filtered r Hr) as [r' Hsel].
  rewrite Hsel. f_equal.
  apply selected_row_Ok in Hsel as [Hid Hr'].
  by apply (NoDup_fmap_eq id filtered).
Qed.

Lemma every_listing_selectable_witness :
  let frame := [ex_listing "1" 50 "Yes" "Mission"; ex_listing "3" 80 "Yes" "Mission"] in
  let view := filtered_df (base_df frame (0, 100)%Z "Yes")
                          (Some "Entire home/apt") (Some "Mission") in
  selected_row view "3" = Ok (ex_listing "3" 80 "Yes" "Mission").
Proof.
  intros frame view.
  apply (every_listing_selectable
    [ex_raw 1 (Some "$50.00") (Some "t") (Some "Mission") (Some "Mission") ∅;
     ex_raw 2 (Some "$60.00") (Some "t") None (Some "Mission") ∅;
     ex_raw 3 (Some "$80.00") (Some "t") (Some "Mission") (Some "Mission") ∅]
    frame (0, 100)%Z "Yes" (Some "Entire home/apt") (Some "Mission")
    (ex_listing "3" 80 "Yes" "Mission")).
  - vm_compute. reflexivity.
  - apply (bool_decide_unpack _). vm_compute. exact I.
  - vm_compute. apply list_elem_of_further, list_elem_of_here.
Defined.
